(** * business-card-api: the contact form and its relay endpoint

    A shallow embedding of [server.js] (the Express handler of
    [POST /api/send]) and of the browser script that drives the contact
    form, followed by the properties of the request/response lifecycle.

    Conventions of the embedding.
    - A JavaScript string is represented by the UTF-8 encoding of its text,
      as a Rocq [string]; the literals below are the literals of the source.
    - A JSON document (request or response body) is represented by the
      value it denotes: [JSON.stringify] on one side and the JSON parser on
      the other are not modelled separately.
    - JSON numbers are kept abstract: an [Engine] provides their type with
      the two conversions the program applies to them.
    - [await] asks an oracle (the remote party) for the outcome of the
      call; everything else is sequential. *)

From Stdlib Require Import String Ascii List Bool ZArith Lia DecimalString.
Import ListNotations.
Open Scope string_scope.

Set Warnings "-register-all".

(** ** JavaScript values *)

Inductive value (number : Type) : Type :=
| VUndefined
| VNull
| VBool (b : bool)
| VNum (n : number)
| VStr (s : string)
| VArr (elems : list (value number))
| VObj (props : list (string * value number)).

Arguments VUndefined {number}.
Arguments VNull {number}.
Arguments VBool {number} b.
Arguments VNum {number} n.
Arguments VStr {number} s.
Arguments VArr {number} elems.
Arguments VObj {number} props.

(** The two ways a property access or a call can go wrong. *)
Inductive type_error : Type :=
| NullishAccess (key : string)
| NotAFunction (callee : string).

(** What the embedding takes from the JavaScript engine: the numbers, with
    ToBoolean and ToString on them, and the wording of its TypeErrors. *)
Class Engine (number : Type) : Type := {
  number_truthy : number -> bool;
  number_to_string : number -> string;
  number_of_nat : nat -> number;
  number_of_nat_truthy :
    forall n, number_truthy (number_of_nat n) = negb (Nat.eqb n 0);
  TypeError_message : type_error -> string
}.

(** A thrown value: [err.name] and [err.message]. *)
Record exn : Type := Exn { exn_name : string; message : string }.

Definition Error (msg : string) : exn := Exn "Error" msg.

(** The line feed of ['\n']. *)
Definition LF : string := String "010"%char EmptyString.

(** [Array.prototype.join] on an array of strings. *)
Fixpoint join (sep : string) (parts : list string) : string :=
  match parts with
  | [] => ""
  | [p] => p
  | p :: rest => p ++ sep ++ join sep rest
  end.

(** Is [sub] a substring of [s]?  ([String.prototype.includes]) *)
Fixpoint includes (s sub : string) : bool :=
  prefix sub s ||
  match s with
  | EmptyString => false
  | String _ rest => includes rest sub
  end.

(** Number of UTF-16 code units of a string given by its UTF-8 bytes: a
    continuation byte counts for nothing, the lead byte of a four-byte
    sequence for a surrogate pair. *)
Fixpoint utf16_length (s : string) : nat :=
  match s with
  | EmptyString => 0
  | String c rest =>
      let b := nat_of_ascii c in
      (if Nat.ltb b 128 then 1
       else if Nat.ltb b 192 then 0
       else if Nat.ltb b 240 then 1
       else 2) + utf16_length rest
  end.

(** *** String.prototype.trim *)

(** WhiteSpace and LineTerminator code points, by the length of their
    UTF-8 encoding: TAB LF VT FF CR SP; U+00A0; U+1680, U+2000..U+200A,
    U+2028, U+2029, U+202F, U+205F, U+3000, U+FEFF. *)
Definition ws1 (a : ascii) : bool :=
  let x := nat_of_ascii a in
  (Nat.leb 9 x && Nat.leb x 13) || Nat.eqb x 32.

Definition ws2 (a b : ascii) : bool :=
  Nat.eqb (nat_of_ascii a) 194 && Nat.eqb (nat_of_ascii b) 160.

Definition ws3 (a b c : ascii) : bool :=
  let x := nat_of_ascii a in
  let y := nat_of_ascii b in
  let z := nat_of_ascii c in
  (Nat.eqb x 225 && Nat.eqb y 154 && Nat.eqb z 128) ||
  (Nat.eqb x 226 && Nat.eqb y 128 &&
     ((Nat.leb 128 z && Nat.leb z 138) || Nat.eqb z 168 || Nat.eqb z 169
      || Nat.eqb z 175)) ||
  (Nat.eqb x 226 && Nat.eqb y 129 && Nat.eqb z 159) ||
  (Nat.eqb x 227 && Nat.eqb y 128 && Nat.eqb z 128) ||
  (Nat.eqb x 239 && Nat.eqb y 187 && Nat.eqb z 191).

(** Drops the white space at the head of a byte list; with [backwards] the
    list is a reversed string and the encodings are read last byte first. *)
Fixpoint drop_white (backwards : bool) (l : list ascii) : list ascii :=
  match l with
  | [] => []
  | a :: r1 =>
      if ws1 a then drop_white backwards r1
      else
        match r1 with
        | b :: r2 =>
            if (if backwards then ws2 b a else ws2 a b)
            then drop_white backwards r2
            else
              match r2 with
              | c :: r3 =>
                  if (if backwards then ws3 c b a else ws3 a b c)
                  then drop_white backwards r3
                  else l
              | [] => l
              end
        | [] => l
        end
  end.

Definition trim (s : string) : string :=
  string_of_list_ascii
    (rev (drop_white true (rev (drop_white false (list_ascii_of_string s))))).

(** ** Operations on values *)

Section Values.
Context {number : Type} {engine : Engine number}.

Abbreviation value := (value number).

(** ToBoolean. *)
Definition truthy (v : value) : bool :=
  match v with
  | VUndefined | VNull => false
  | VBool b => b
  | VNum n => number_truthy n
  | VStr s => negb (s =? "")
  | VArr _ | VObj _ => true
  end.

(** ToString, as a template literal [`${v}`] or [new Error(v)] applies
    it: an array prints its elements separated by commas, with nothing
    for [null] and [undefined]. *)
Fixpoint ToString (v : value) : string :=
  match v with
  | VUndefined => "undefined"
  | VNull => "null"
  | VBool true => "true"
  | VBool false => "false"
  | VNum n => number_to_string n
  | VStr s => s
  | VArr elems =>
      (fix commas (l : list value) : string :=
         match l with
         | [] => ""
         | x :: rest =>
             (match x with
              | VUndefined | VNull => ""
              | _ => ToString x
              end) ++
             (match rest with
              | [] => ""
              | _ :: _ => "," ++ commas rest
              end)
         end) elems
  | VObj _ => "[object Object]"
  end.

(** An own property of an object, by key. *)
Fixpoint own (props : list (string * value)) (key : string) : option value :=
  match props with
  | [] => None
  | (k, v) :: rest => if k =? key then Some v else own rest key
  end.

(** [v[key]] for the keys the program reads ([name], [contact],
    [services], [error], [length]): of these only [length] exists on
    strings and arrays; every other miss is [undefined]. *)
Definition get_defined (v : value) (key : string) : value :=
  match v with
  | VObj props =>
      match own props key with
      | Some x => x
      | None => VUndefined
      end
  | VArr elems =>
      if key =? "length" then VNum (number_of_nat (List.length elems))
      else VUndefined
  | VStr s =>
      if key =? "length" then VNum (number_of_nat (utf16_length s))
      else VUndefined
  | _ => VUndefined
  end.

(** [v?.key] *)
Definition optional_get (v : value) (key : string) : value :=
  match v with
  | VUndefined | VNull => VUndefined
  | _ => get_defined v key
  end.

(** [a || b] *)
Definition or_else (a b : value) : value := if truthy a then a else b.

(** The document [JSON.stringify] writes for an object literal whose
    property values are strings or [undefined]: a property whose value is
    [undefined] is left out. *)
Definition JSON_object (fields : list (string * value)) : value :=
  VObj (filter (fun kv => match snd kv with
                          | VUndefined => false
                          | _ => true
                          end) fields).

(** A variable of [process.env]. *)
Definition env_value (o : option string) : value :=
  match o with
  | Some s => VStr s
  | None => VUndefined
  end.
End Values.

(** ** Sequential code with exceptions over a state *)

Inductive completion (A : Type) : Type :=
| Normal (a : A)
| Throw (e : exn).

Arguments Normal {A} a.
Arguments Throw {A} e.

Definition M (S A : Type) : Type := S -> completion A * S.

Definition ret {S A} (a : A) : M S A := fun s => (Normal a, s).

Definition throw {S A} (e : exn) : M S A := fun s => (Throw e, s).

Definition bind {S A B} (m : M S A) (k : A -> M S B) : M S B :=
  fun s =>
    match m s with
    | (Normal a, s') => k a s'
    | (Throw e, s') => (Throw e, s')
    end.

Definition modify {S} (f : S -> S) : M S unit := fun s => (Normal tt, f s).

Definition lift {S A} (c : completion A) : M S A := fun s => (c, s).

(** [try { body } catch (err) { handler }] *)
Definition try_catch {S A} (body : M S A) (handler : exn -> M S A) : M S A :=
  fun s =>
    match body s with
    | (Normal a, s') => (Normal a, s')
    | (Throw e, s') => handler e s'
    end.

(** [try { body } finally { final }]: [final] runs on every way out of
    [body]; unless it throws itself, the completion is the one of [body]. *)
Definition try_finally {S A} (body : M S A) (final : M S unit) : M S A :=
  fun s =>
    match body s with
    | (c, s') =>
        match final s' with
        | (Normal _, s'') => (c, s'')
        | (Throw e, s'') => (Throw e, s'')
        end
    end.

Declare Scope js_scope.
Delimit Scope js_scope with js.
Notation "x <- c ;; k" := (bind c (fun x => k))
  (at level 61, c at next level, right associativity) : js_scope.
Notation "c ;; k" := (bind c (fun _ => k))
  (at level 61, right associativity) : js_scope.
Open Scope js_scope.

(** Property reads and method calls that can throw, in any script. *)
Section Access.
Context {number : Type} {engine : Engine number} {S : Type}.

(** [obj.key], which throws on [undefined] and [null]. *)
Definition get (v : value number) (key : string) : M S (value number) :=
  match v with
  | VUndefined | VNull =>
      throw (Exn "TypeError" (TypeError_message (NullishAccess key)))
  | _ => ret (get_defined v key)
  end.

(** [arr.map(f)], for [f] from values to strings; only an array has the
    method. *)
Definition map_method (callee : string) (v : value number)
    (f : value number -> string) : M S (list string) :=
  match v with
  | VArr elems => ret (map f elems)
  | _ => throw (Exn "TypeError" (TypeError_message (NotAFunction callee)))
  end.
End Access.

(** ** The network *)

(** A response as the two programs look at it: its status, and what
    [await res.json()] gives. *)
Record Response (number : Type) : Type := {
  status : Z;
  json : completion (value number)
}.

Arguments status {number} r.
Arguments json {number} r.

(** [response.ok]: the status is in 200..299. *)
Definition ok {number} (r : Response number) : bool :=
  (200 <=? status r)%Z && (status r <=? 299)%Z.

(** The second argument of [fetch]. *)
Record RequestInit (number : Type) : Type := {
  method : string;
  headers : list (string * string);
  body : value number
}.

Arguments method {number} r.
Arguments headers {number} r.
Arguments body {number} r.

(** How a [fetch] promise settles. *)
Inductive settled (number : Type) : Type :=
| Resolved (r : Response number)
| Rejected (e : exn).

Arguments Resolved {number} r.
Arguments Rejected {number} e.

(** The remote party: what a call to a URL settles to. *)
Definition remote (number : Type) : Type :=
  string -> RequestInit number -> settled number.

(** ** The relay handler ([server.js]) *)

Module Server.

(** [const { BOT_TOKEN, CHAT_ID, PORT } = process.env] *)
Record process_env : Type := {
  BOT_TOKEN : option string;
  CHAT_ID : option string;
  PORT : option string
}.

Section Handler.
Context {number : Type} {engine : Engine number}.

Abbreviation value := (value number).

(** What the handler does to the outside, in order. *)
Inductive event : Type :=
| Fetch (url : string) (init : RequestInit number)
| ConsoleError (args : list string)
| Respond (code : Z) (payload : value).

Definition Handler : Type -> Type := M (list event).

Definition emit (e : event) : Handler unit :=
  modify (fun log => (log ++ [e])%list).

(** [await fetch(url, init)] *)
Definition fetch (upstream : remote number) (url : string)
    (init : RequestInit number) : Handler (Response number) :=
  emit (Fetch url init) ;;
  match upstream url init with
  | Resolved r => ret r
  | Rejected e => throw e
  end.

(** [res.status(code).json(payload)] *)
Definition res_status_json (code : Z) (payload : value) : Handler unit :=
  emit (Respond code payload).

(** [res.json(payload)] *)
Definition res_json (payload : value) : Handler unit :=
  res_status_json 200 payload.

Definition console_error (args : list string) : Handler unit :=
  emit (ConsoleError args).

Definition sendMessage_url (env : process_env) : string :=
  "https://api.telegram.org/bot" ++ ToString (env_value (BOT_TOKEN env))
    ++ "/sendMessage".

(** The text built at lines 52-60. *)
Definition text (name contact : value) (bullets : list string) : string :=
  join LF
    ("📩 Новая заявка с сайта!"
     :: ""
     :: ("👤 Имя: " ++ ToString name)
     :: ("📱 Контакт: " ++ ToString contact)
     :: ""
     :: "🔧 Услуги:"
     :: bullets).

(** The test of line 45: [!name || !contact || !services?.length]. *)
Definition incomplete (name contact services : value) : bool :=
  negb (truthy name) || negb (truthy contact)
  || negb (truthy (optional_get services "length")).

(** The options of the outbound call, lines 69-78. *)
Definition sendMessage_init (env : process_env) (text : string)
  : RequestInit number :=
  {| method := "POST";
     headers := [("Content-Type", "application/json")];
     body := JSON_object [("chat_id", env_value (CHAT_ID env));
                          ("text", VStr text);
                          ("parse_mode", VStr "HTML")] |}.

(** [app.post('/api/send', async (req, res) => ...)], on [req.body]. *)
Definition send (env : process_env) (upstream : remote number)
    (req_body : value) : Handler unit :=
  name <- get req_body "name" ;;
  contact <- get req_body "contact" ;;
  services <- get req_body "services" ;;
  if incomplete name contact services
  then
    res_status_json 400
      (VObj [("error", VStr "Заполни все поля и выбери хотя бы одну услугу")])
  else
    bullets <- map_method "services.map" services
                 (fun s => "  • " ++ ToString s) ;;
    let text := text name contact bullets in
    try_catch
      (response <- fetch upstream (sendMessage_url env)
                     (sendMessage_init env text) ;;
       (if negb (ok response)
        then throw (Error "Telegram API error")
        else ret tt) ;;
       res_json (VObj [("success", VBool true)]))
      (fun err =>
         console_error ["Ошибка отправки в Telegram:"; message err] ;;
         res_status_json 500
           (VObj [("error", VStr "Не удалось отправить сообщение")])).

(** One request, from an empty trace. *)
Definition run (env : process_env) (upstream : remote number)
    (req_body : value) : completion unit * list event :=
  send env upstream req_body [].

(** The outbound calls of a trace. *)
Fixpoint outbound_calls (trace : list event)
  : list (string * RequestInit number) :=
  match trace with
  | [] => []
  | Fetch url init :: rest => (url, init) :: outbound_calls rest
  | _ :: rest => outbound_calls rest
  end.

(** The responses written to the client. *)
Fixpoint responses (trace : list event) : list (Z * value) :=
  match trace with
  | [] => []
  | Respond code payload :: rest => (code, payload) :: responses rest
  | _ :: rest => responses rest
  end.

End Handler.

End Server.

(** ** The form controller (the page's script) *)

Module Client.

(** The elements of the page the script touches.  The markup itself is not
    part of the sources: the default values of the controls, which
    [form.reset()] restores, are carried by the state. *)
Record input : Type := {
  input_value : string;
  defaultValue : string
}.

Record checkbox : Type := {
  cb_value : string;
  checked : bool;
  defaultChecked : bool
}.

Record element : Type := {
  textContent : string;
  className : string
}.

Record button : Type := {
  disabled : bool;
  label : string               (* its textContent *)
}.

Record page : Type := {
  name_input : input;          (* #name *)
  contact_input : input;       (* #contact *)
  menu_checkboxes : list checkbox;  (* #dropdownMenu input[type=checkbox] *)
  status_el : element;         (* #status *)
  btn : button                 (* #contactForm .submit-btn *)
}.

Section Submit.
Context {number : Type} {engine : Engine number}.

Inductive event : Type :=
| PreventDefault
| Fetch (url : string) (init : RequestInit number).

Record world : Type := {
  dom : page;
  trace : list event
}.

Definition Script : Type -> Type := M world.

Definition emit (e : event) : Script unit :=
  modify (fun w => {| dom := dom w; trace := (trace w ++ [e])%list |}).

Definition update (f : page -> page) : Script unit :=
  modify (fun w => {| dom := f (dom w); trace := trace w |}).

Definition reads {A} (f : page -> A) : Script A :=
  fun w => (Normal (f (dom w)), w).

(** [status.textContent = s] *)
Definition set_status_textContent (s : string) : Script unit :=
  update (fun p =>
    {| name_input := name_input p; contact_input := contact_input p;
       menu_checkboxes := menu_checkboxes p;
       status_el := {| textContent := s;
                       className := className (status_el p) |};
       btn := btn p |}).

(** [status.className = s] *)
Definition set_status_className (s : string) : Script unit :=
  update (fun p =>
    {| name_input := name_input p; contact_input := contact_input p;
       menu_checkboxes := menu_checkboxes p;
       status_el := {| textContent := textContent (status_el p);
                       className := s |};
       btn := btn p |}).

(** [btn.disabled = b] *)
Definition set_btn_disabled (b : bool) : Script unit :=
  update (fun p =>
    {| name_input := name_input p; contact_input := contact_input p;
       menu_checkboxes := menu_checkboxes p;
       status_el := status_el p;
       btn := {| disabled := b; label := label (btn p) |} |}).

(** [btn.textContent = s] *)
Definition set_btn_textContent (s : string) : Script unit :=
  update (fun p =>
    {| name_input := name_input p; contact_input := contact_input p;
       menu_checkboxes := menu_checkboxes p;
       status_el := status_el p;
       btn := {| disabled := disabled (btn p); label := s |} |}).

Definition reset_input (i : input) : input :=
  {| input_value := defaultValue i; defaultValue := defaultValue i |}.

Definition reset_checkbox (c : checkbox) : checkbox :=
  {| cb_value := cb_value c; checked := defaultChecked c;
     defaultChecked := defaultChecked c |}.

(** [form.reset()]: every control of the form goes back to its default. *)
Definition form_reset : Script unit :=
  update (fun p =>
    {| name_input := reset_input (name_input p);
       contact_input := reset_input (contact_input p);
       menu_checkboxes := map reset_checkbox (menu_checkboxes p);
       status_el := status_el p;
       btn := btn p |}).

Definition uncheck (c : checkbox) : checkbox :=
  {| cb_value := cb_value c; checked := false;
     defaultChecked := defaultChecked c |}.

(** [dropdownMenu.querySelectorAll('input[type="checkbox"]')
      .forEach(cb => cb.checked = false)] *)
Definition uncheck_all : Script unit :=
  update (fun p =>
    {| name_input := name_input p; contact_input := contact_input p;
       menu_checkboxes := map uncheck (menu_checkboxes p);
       status_el := status_el p;
       btn := btn p |}).

(** The values of the checked boxes of the menu, in document order. *)
Definition getSelectedServices (p : page) : list string :=
  map cb_value (filter checked (menu_checkboxes p)).

(** [await fetch(url, init)] *)
Definition fetch (server : remote number) (url : string)
    (init : RequestInit number) : Script (Response number) :=
  emit (Fetch url init) ;;
  match server url init with
  | Resolved r => ret r
  | Rejected e => throw e
  end.

(** The listener of the form's [submit] event. *)
Definition submit (server : remote number) : Script unit :=
  emit PreventDefault ;;
  name <- reads (fun p => trim (input_value (name_input p))) ;;
  contact <- reads (fun p => trim (input_value (contact_input p))) ;;
  services <- reads getSelectedServices ;;
  if Nat.eqb (List.length services) 0
  then
    set_status_textContent "Выберите хотя бы одну услугу" ;;
    set_status_className "status error"
  else
    set_btn_disabled true ;;
    set_btn_textContent "Отправка..." ;;
    set_status_textContent "" ;;
    set_status_className "status" ;;
    try_finally
      (try_catch
         (res <- fetch server "/api/send"
                   {| method := "POST";
                      headers := [("Content-Type", "application/json")];
                      body := JSON_object
                                [("name", VStr name);
                                 ("contact", VStr contact);
                                 ("services", VArr (map VStr services))] |} ;;
          data <- lift (json res) ;;
          if ok res
          then
            set_status_textContent "Заявка отправлена! Я свяжусь с вами." ;;
            set_status_className "status success" ;;
            form_reset ;;
            uncheck_all
          else
            error <- get data "error" ;;
            throw (Error (ToString (or_else error (VStr "Ошибка")))))
         (fun err =>
            set_status_textContent (message err) ;;
            set_status_className "status error"))
      (set_btn_disabled false ;;
       set_btn_textContent "Отправить заявку").

(** One submit event on a page, from an empty trace. *)
Definition run (server : remote number) (p : page)
  : completion unit * world :=
  submit server {| dom := p; trace := [] |}.

(** The network calls of a trace. *)
Fixpoint network_calls (t : list event)
  : list (string * RequestInit number) :=
  match t with
  | [] => []
  | Fetch url init :: rest => (url, init) :: network_calls rest
  | _ :: rest => network_calls rest
  end.
End Submit.

End Client.

(** ** The vocabulary of the specification *)

Section Vocabulary.
Context {number : Type} {engine : Engine number}.

(** A text field of the body that is "empty or absent". *)
Definition empty_or_absent (o : option (value number)) : Prop :=
  o = None \/ o = Some (VStr "").

(** The services of the body, "absent or empty". *)
Definition absent_or_empty (o : option (value number)) : Prop :=
  o = None \/ o = Some (VArr []).

(** A body the specification calls invalid. *)
Definition lacking (props : list (string * value number)) : Prop :=
  empty_or_absent (own props "name")
  \/ empty_or_absent (own props "contact")
  \/ absent_or_empty (own props "services").

(** A body that carries a SubmissionRequest: a non-empty name, a non-empty
    contact and a non-empty list of services. *)
Definition valid_submission (props : list (string * value number))
    (name contact : string) (services : list string) : Prop :=
  own props "name" = Some (VStr name) /\ name <> ""
  /\ own props "contact" = Some (VStr contact) /\ contact <> ""
  /\ own props "services" = Some (VArr (map VStr services))
  /\ services <> [].

(** One line per service, each after a line feed. *)
Fixpoint bulleted (services : list string) : string :=
  match services with
  | [] => ""
  | s :: rest => LF ++ "  • " ++ s ++ bulleted rest
  end.

(** RelayMessage in the specification's words: greeting header, blank
    line, name line, contact line, blank line, services header, then one
    bulleted line per service in selection order. *)
Definition RelayMessage (name contact : string) (services : list string)
  : string :=
  "📩 Новая заявка с сайта!" ++ LF
  ++ LF
  ++ "👤 Имя: " ++ name ++ LF
  ++ "📱 Контакт: " ++ contact ++ LF
  ++ LF
  ++ "🔧 Услуги:"
  ++ bulleted services.

(** The payload of the 400 answer. *)
Definition validation_payload : value number :=
  VObj [("error", VStr "Заполни все поля и выбери хотя бы одну услугу")].

(** The payload of the 500 answer. *)
Definition failure_payload : value number :=
  VObj [("error", VStr "Не удалось отправить сообщение")].

(** The outbound call "fails": its promise rejects, or its response has a
    status outside 200..299. *)
Definition failed (o : settled number) : Prop :=
  match o with
  | Resolved r => ok r = false
  | Rejected _ => True
  end.

(** The error text the handler then holds: the message of the rejection,
    or the message of the error it raises itself for a bad status. *)
Definition upstream_error_text (o : settled number) : string :=
  match o with
  | Resolved _ => "Telegram API error"
  | Rejected e => message e
  end.

(** The client's call went through: a response with a success status
    whose body parsed as JSON. *)
Definition succeeded (o : settled number) : bool :=
  match o with
  | Resolved r =>
      ok r && match json r with Normal _ => true | Throw _ => false end
  | Rejected _ => false
  end.

(** The request the page sends for its current fields. *)
Definition submission (p : Client.page) : RequestInit number :=
  {| method := "POST";
     headers := [("Content-Type", "application/json")];
     body := VObj [("name", VStr (trim (Client.input_value
                                          (Client.name_input p))));
                   ("contact", VStr (trim (Client.input_value
                                             (Client.contact_input p))));
                   ("services", VArr (map VStr
                                        (Client.getSelectedServices p)))] |}.

(** Bodies that lack something: an empty name; no services at all. *)
Definition nameless : list (string * value number) :=
  [("name", VStr "");
   ("contact", VStr "ann@x.com");
   ("services", VArr [VStr "Haircut"])].

Definition without_services : list (string * value number) :=
  [("name", VStr "Ann"); ("contact", VStr "ann@x.com")].

(** The body of end-to-end scenario 1. *)
Definition ann : list (string * value number) :=
  [("name", VStr "Ann");
   ("contact", VStr "ann@x.com");
   ("services", VArr [VStr "Haircut"])].
End Vocabulary.

(** ** An engine to run examples on: the integers as numbers, V8's
    wording of TypeErrors *)

#[local] Instance int_engine : Engine Z := {|
  number_truthy := fun z => negb (z =? 0)%Z;
  number_to_string := fun z => NilZero.string_of_int (Z.to_int z);
  number_of_nat := Z.of_nat;
  number_of_nat_truthy :=
    fun n => match n with O => eq_refl | S _ => eq_refl end;
  TypeError_message := fun t =>
    match t with
    | NullishAccess key =>
        "Cannot read properties of undefined (reading '" ++ key ++ "')"
    | NotAFunction callee => callee ++ " is not a function"
    end
|}.

Definition example_env : Server.process_env :=
  {| Server.BOT_TOKEN := Some "123:abc";
     Server.CHAT_ID := Some "42";
     Server.PORT := Some "3000" |}.

(** A page with one service of two checked and a name of blanks only. *)
Definition example_page : Client.page :=
  {| Client.name_input :=
       {| Client.input_value := "   "; Client.defaultValue := "" |};
     Client.contact_input :=
       {| Client.input_value := " ann@x.com "; Client.defaultValue := "" |};
     Client.menu_checkboxes :=
       [{| Client.cb_value := "Haircut"; Client.checked := true;
           Client.defaultChecked := false |};
        {| Client.cb_value := "Shave"; Client.checked := false;
           Client.defaultChecked := false |}];
     Client.status_el :=
       {| Client.textContent := ""; Client.className := "status" |};
     Client.btn :=
       {| Client.disabled := false; Client.label := "Отправить заявку" |} |}.

(** The same page with nothing checked. *)
Definition unchecked_page : Client.page :=
  {| Client.name_input := Client.name_input example_page;
     Client.contact_input := Client.contact_input example_page;
     Client.menu_checkboxes :=
       map Client.uncheck (Client.menu_checkboxes example_page);
     Client.status_el := Client.status_el example_page;
     Client.btn := Client.btn example_page |}.

(** The messaging API answering 200, answering 403, and unreachable. *)
Definition upstream_200 : remote Z :=
  fun _ _ => Resolved {| status := 200;
                         json := Normal (VObj [("ok", VBool true)]) |}.

Definition upstream_403 : remote Z :=
  fun _ _ => Resolved {| status := 403;
                         json := Normal (VObj [("ok", VBool false);
                                               ("description",
                                                VStr "Forbidden: bot was blocked by the user")]) |}.

Definition upstream_down : remote Z :=
  fun _ _ => Rejected (Exn "TypeError" "fetch failed").

(** The relay endpoint as the page sees it: answering 200, answering 500
    with the handler's payload, unreachable, and answering 200 with a body
    that is not JSON. *)
Definition server_200 : remote Z :=
  fun _ _ => Resolved {| status := 200;
                         json := Normal (VObj [("success", VBool true)]) |}.

Definition server_500 : remote Z :=
  fun _ _ => Resolved {| status := 500; json := Normal failure_payload |}.

Definition server_offline : remote Z :=
  fun _ _ => Rejected (Exn "TypeError" "Failed to fetch").

Definition server_garbled : remote Z :=
  fun _ _ => Resolved {| status := 200;
                         json := Throw (Exn "SyntaxError"
                                          "Unexpected token < in JSON") |}.

(** ** The services menu (the page's script, lines 12-28) *)

Module Dropdown.

(** [dropdownMenu.classList]: the class names of the menu. *)
Definition classList : Type := list string.

(** [classList.contains(token)] *)
Definition contains (l : classList) (token : string) : bool :=
  existsb (String.eqb token) l.

(** [classList.remove(token)] *)
Definition remove (l : classList) (token : string) : classList :=
  filter (fun c => negb (c =? token)) l.

(** [classList.toggle(token)]: takes the token out when it is there, adds
    it at the end when it is not. *)
Definition toggle (l : classList) (token : string) : classList :=
  if contains l token then remove l token else (l ++ [token])%list.

(** The listener of [click] on [dropdownBtn]. *)
Definition dropdownBtn_click (menu : classList) : classList :=
  toggle menu "open".

(** The listener of [click] on [document]; [inside] tells whether
    [e.target.closest('.dropdown')] finds an element. *)
Definition document_click (inside : bool) (menu : classList) : classList :=
  if negb inside then remove menu "open" else menu.

(** A click on the button: its own listener runs, then, as nothing stops
    the event from bubbling, the listener of the document, with the button
    as target. *)
Definition click_on_button (inside : bool) (menu : classList) : classList :=
  document_click inside (dropdownBtn_click menu).

End Dropdown.

(** ** More vocabulary: what the page shows, and the page served by the
    handler *)

Section Outcomes.
Context {number : Type} {engine : Engine number}.

(** The message of the error that reaches the [catch] of the listener. *)
Definition caught_message (o : settled number) : string :=
  match o with
  | Rejected e => message e
  | Resolved r =>
      match json r with
      | Throw e => message e
      | Normal data =>
          match data with
          | VUndefined | VNull => TypeError_message (NullishAccess "error")
          | _ => ToString (or_else (get_defined data "error") (VStr "Ошибка"))
          end
      end
  end.

(** The page a submission leaves once its call has settled to [o]. *)
Definition settled_page (p : Client.page) (o : settled number) : Client.page :=
  if succeeded o
  then
    {| Client.name_input := Client.reset_input (Client.name_input p);
       Client.contact_input := Client.reset_input (Client.contact_input p);
       Client.menu_checkboxes :=
         map Client.uncheck
           (map Client.reset_checkbox (Client.menu_checkboxes p));
       Client.status_el :=
         {| Client.textContent := "Заявка отправлена! Я свяжусь с вами.";
            Client.className := "status success" |};
       Client.btn := {| Client.disabled := false;
                        Client.label := "Отправить заявку" |} |}
  else
    {| Client.name_input := Client.name_input p;
       Client.contact_input := Client.contact_input p;
       Client.menu_checkboxes := Client.menu_checkboxes p;
       Client.status_el :=
         {| Client.textContent := caught_message o;
            Client.className := "status error" |};
       Client.btn := {| Client.disabled := false;
                        Client.label := "Отправить заявку" |} |}.

(** The page's [/api/send] is the handler: whenever the handler writes one
    answer to the body the page sent, that answer, with its status and its
    JSON payload, is what the page's call resolves to. *)
Definition served_by (env : Server.process_env) (upstream : remote number)
    (server : remote number) : Prop :=
  forall init code payload,
    Server.responses (snd (Server.run env upstream (body init)))
    = [(code, payload)] ->
    server "/api/send" init
    = Resolved {| status := code; json := Normal payload |}.

(** Such a server, to run examples on; a request the handler leaves
    unanswered is made to fail. *)
Definition express (env : Server.process_env) (upstream : remote number)
  : remote number :=
  fun _ init =>
    match Server.responses (snd (Server.run env upstream (body init))) with
    | [(code, payload)] =>
        Resolved {| status := code; json := Normal payload |}
    | _ => Rejected (Exn "TypeError" "Failed to fetch")
    end.

(** The fields of a page are filled in: after trimming, a name and a
    contact remain, and a service is checked. *)
Definition filled_in (p : Client.page) : Prop :=
  trim (Client.input_value (Client.name_input p)) <> ""
  /\ trim (Client.input_value (Client.contact_input p)) <> ""
  /\ Client.getSelectedServices p <> [].
End Outcomes.

(** The line feeds of a string. *)
Fixpoint count_LF (s : string) : nat :=
  match s with
  | EmptyString => 0
  | String c rest =>
      (if Ascii.eqb c "010"%char then 1 else 0) + count_LF rest
  end.

(** A page ready to be sent, and a menu. *)
Definition ready_page : Client.page :=
  {| Client.name_input :=
       {| Client.input_value := " Ann "; Client.defaultValue := "" |};
     Client.contact_input :=
       {| Client.input_value := "ann@x.com"; Client.defaultValue := "" |};
     Client.menu_checkboxes := Client.menu_checkboxes example_page;
     Client.status_el := Client.status_el example_page;
     Client.btn := Client.btn example_page |}.

Definition example_menu : Dropdown.classList := ["dropdown-menu"; "open"].

(** The relay endpoint answering 500 with a payload that has no error
    text. *)
Definition server_500_bare : remote Z :=
  fun _ _ => Resolved {| status := 500; json := Normal (VObj []) |}.

(** A process started with no configuration. *)
Definition bare_env : Server.process_env :=
  {| Server.BOT_TOKEN := None; Server.CHAT_ID := None;
     Server.PORT := None |}.

(** ** Facts about strings *)

Lemma append_nil_r (s : string) : s ++ "" = s.
Proof.
  induction s as [| c s IH]; simpl; [reflexivity | now rewrite IH].
Qed.

Lemma append_assoc (s t u : string) : (s ++ t) ++ u = s ++ t ++ u.
Proof.
  induction s as [| c s IH]; simpl; [reflexivity | now rewrite IH].
Qed.

Lemma join_cons (sep a b : string) (rest : list string) :
  join sep (a :: b :: rest) = a ++ sep ++ join sep (b :: rest).
Proof. reflexivity. Qed.

Lemma join_bulleted (head : string) (services : list string) :
  join LF (head :: map (fun s => "  • " ++ s) services)
  = head ++ bulleted services.
Proof.
  revert head.
  induction services as [| s rest IH]; intros head.
  - simpl. now rewrite append_nil_r.
  - change (join LF (head :: map (fun s => "  • " ++ s) (s :: rest)))
      with (head ++ LF
            ++ join LF (("  • " ++ s) :: map (fun s => "  • " ++ s) rest)).
    rewrite IH. simpl bulleted. now rewrite append_assoc.
Qed.

Lemma prefix_chars (sub s : string) (ch : ascii) :
  prefix sub s = true ->
  In ch (list_ascii_of_string sub) -> In ch (list_ascii_of_string s).
Proof.
  revert sub.
  induction s as [| b s IH]; intros [| a sub]; simpl; try easy.
  destruct (ascii_dec a b) as [-> | _]; [| easy].
  intros Hp [-> | Hin]; [now left | right; now apply (IH sub)].
Qed.

(** A string that has a character foreign to [s] does not occur in [s]. *)
Lemma includes_chars (s sub : string) (ch : ascii) :
  includes s sub = true ->
  In ch (list_ascii_of_string sub) -> In ch (list_ascii_of_string s).
Proof.
  induction s as [| b s IH]; simpl; intros H Hin.
  - rewrite orb_false_r in H. destruct sub; [easy | discriminate].
  - apply orb_true_iff in H as [H | H].
    + now apply (prefix_chars sub (String b s)).
    + right. now apply IH.
Qed.

Example trim_examples :
  trim "  Ann  Lee " = "Ann  Lee"
  /\ trim "   " = ""
  /\ trim (String "009" (String "194" (String "160" "x"))) = "x"
  /\ trim "Имя　" = "Имя".
Proof. repeat split. Qed.

(** ** Properties of the relay handler *)

Section RelayHandler.
Context {number : Type} {engine : Engine number}.
Variable env : Server.process_env.
Variable upstream : remote number.

Import Server.

Abbreviation value := (value number).

Lemma run_nullish (b : value) :
  b = VUndefined \/ b = VNull ->
  run env upstream b
  = (Throw (Exn "TypeError" (TypeError_message (NullishAccess "name"))), []).
Proof.
  intros [-> | ->]; reflexivity.
Qed.

Lemma run_incomplete (b : value) :
  b <> VUndefined -> b <> VNull ->
  incomplete (get_defined b "name") (get_defined b "contact")
    (get_defined b "services") = true ->
  run env upstream b = (Normal tt, [Respond 400 validation_payload]).
Proof.
  intros Hu Hn Hinc.
  unfold run, send.
  destruct b; try congruence;
    unfold get, bind, ret; rewrite Hinc; reflexivity.
Qed.

Lemma run_not_array (b : value) :
  b <> VUndefined -> b <> VNull ->
  incomplete (get_defined b "name") (get_defined b "contact")
    (get_defined b "services") = false ->
  (forall elems, get_defined b "services" <> VArr elems) ->
  run env upstream b
  = (Throw (Exn "TypeError" (TypeError_message (NotAFunction "services.map"))),
     []).
Proof.
  intros Hu Hn Hinc Harr.
  unfold run, send.
  destruct b; try congruence;
    unfold get, bind, ret; rewrite Hinc;
    (destruct (get_defined _ "services") eqn:E; try reflexivity;
     exfalso; eapply Harr; reflexivity).
Qed.

(** The three ways a relayed request ends. *)
Lemma run_relay (b : value) (elems : list value) :
  b <> VUndefined -> b <> VNull ->
  incomplete (get_defined b "name") (get_defined b "contact")
    (get_defined b "services") = false ->
  get_defined b "services" = VArr elems ->
  let url := sendMessage_url env in
  let init :=
    sendMessage_init env
      (text (get_defined b "name") (get_defined b "contact")
         (map (fun s => "  • " ++ ToString s) elems)) in
  run env upstream b
  = (Normal tt,
     Fetch url init ::
     match upstream url init with
     | Resolved r =>
         if ok r
         then [Respond 200 (VObj [("success", VBool true)])]
         else [ConsoleError ["Ошибка отправки в Telegram:"; "Telegram API error"];
               Respond 500 failure_payload]
     | Rejected e =>
         [ConsoleError ["Ошибка отправки в Telegram:"; message e];
          Respond 500 failure_payload]
     end).
Proof.
  intros Hu Hn Hinc Harr url init.
  unfold run, send.
  destruct b; try congruence;
    unfold get, bind, ret; rewrite Hinc; rewrite Harr in *;
    cbn [map_method]; unfold ret, try_catch, fetch, bind, emit, modify;
    cbn [app]; fold url; fold init;
    (destruct (upstream url init) as [r | e]; cbn;
     [ destruct (ok r); reflexivity | reflexivity ]).
Qed.

Lemma lacking_incomplete (props : list (string * value)) :
  lacking props ->
  incomplete (get_defined (VObj props) "name")
    (get_defined (VObj props) "contact")
    (get_defined (VObj props) "services") = true.
Proof.
  unfold lacking, empty_or_absent, absent_or_empty, incomplete.
  cbn [get_defined].
  intros [[-> | ->] | [[-> | ->] | [-> | ->]]]; cbn;
    rewrite ?number_of_nat_truthy, ?orb_true_r; reflexivity.
Qed.

Lemma valid_complete (props : list (string * value))
    (name contact : string) (services : list string) :
  valid_submission props name contact services ->
  incomplete (get_defined (VObj props) "name")
    (get_defined (VObj props) "contact")
    (get_defined (VObj props) "services") = false.
Proof.
  intros (Hn & Hne & Hc & Hce & Hs & Hse).
  unfold incomplete. cbn [get_defined]. rewrite Hn, Hc, Hs. cbn.
  rewrite number_of_nat_truthy.
  apply String.eqb_neq in Hne, Hce. rewrite Hne, Hce.
  destruct services; [congruence | reflexivity].
Qed.

Lemma text_RelayMessage (name contact : string) (services : list string) :
  text (VStr name) (VStr contact)
    (map (fun s : value => "  • " ++ ToString s) (map VStr services))
  = RelayMessage name contact services.
Proof.
  rewrite map_map. cbn [ToString].
  unfold text, RelayMessage.
  rewrite !join_cons, join_bulleted.
  rewrite !append_assoc. reflexivity.
Qed.

(** What a valid submission makes of [run_relay]. *)
Lemma run_valid (props : list (string * value))
    (name contact : string) (services : list string) :
  valid_submission props name contact services ->
  let url := sendMessage_url env in
  let init := sendMessage_init env (RelayMessage name contact services) in
  run env upstream (VObj props)
  = (Normal tt,
     Fetch url init ::
     match upstream url init with
     | Resolved r =>
         if ok r
         then [Respond 200 (VObj [("success", VBool true)])]
         else [ConsoleError ["Ошибка отправки в Telegram:"; "Telegram API error"];
               Respond 500 failure_payload]
     | Rejected e =>
         [ConsoleError ["Ошибка отправки в Telegram:"; message e];
          Respond 500 failure_payload]
     end).
Proof.
  intros Hv url init.
  pose proof (valid_complete _ _ _ _ Hv) as Hc.
  destruct Hv as (Hn & _ & Hct & _ & Hs & _).
  rewrite (run_relay (VObj props) (map VStr services));
    try discriminate; try assumption.
  - cbn [get_defined]. rewrite Hn, Hct.
    rewrite text_RelayMessage. reflexivity.
  - cbn [get_defined]. now rewrite Hs.
Qed.

(** C1. A request to POST /api/send whose body has [name] empty or absent,
    or [contact] empty or absent, or [services] absent or empty, is
    answered with status 400 and a payload [{error: msg}] with a non-empty
    [msg]; that answer is all the handler does: no outbound call. *)
Theorem validation_rejects_lacking (props : list (string * value)) :
  lacking props ->
  exists msg : string,
    msg <> ""
    /\ run env upstream (VObj props)
       = (Normal tt, [Respond 400 (VObj [("error", VStr msg)])])
    /\ outbound_calls (snd (run env upstream (VObj props))) = [].
Proof.
  intros H.
  exists "Заполни все поля и выбери хотя бы одну услугу".
  rewrite (run_incomplete (VObj props));
    try discriminate; [| now apply lacking_incomplete].
  repeat split. discriminate.
Qed.

(** Every way a request can go, for any [req.body]. *)
Lemma run_cases (b : value) :
  (exists e, run env upstream b = (Throw e, []))
  \/ run env upstream b = (Normal tt, [Respond 400 validation_payload])
  \/ (exists elems url init,
        get_defined b "services" = VArr elems /\ elems <> []
        /\ run env upstream b
           = (Normal tt,
              Fetch url init ::
              match upstream url init with
              | Resolved r =>
                  if ok r
                  then [Respond 200 (VObj [("success", VBool true)])]
                  else [ConsoleError ["Ошибка отправки в Telegram:";
                                      "Telegram API error"];
                        Respond 500 failure_payload]
              | Rejected e =>
                  [ConsoleError ["Ошибка отправки в Telegram:"; message e];
                   Respond 500 failure_payload]
              end)).
Proof.
  assert (Hnull : b = VUndefined \/ b = VNull
                  \/ (b <> VUndefined /\ b <> VNull)).
  { destruct b; auto; right; right; split; discriminate. }
  destruct Hnull as [H | [H | [Hu Hn]]].
  - left. eexists. apply run_nullish. now left.
  - left. eexists. apply run_nullish. now right.
  - destruct (incomplete (get_defined b "name") (get_defined b "contact")
                (get_defined b "services")) eqn:Hinc.
    + right; left. now apply run_incomplete.
    + assert (Hs : (exists elems, get_defined b "services" = VArr elems)
                   \/ forall elems, get_defined b "services" <> VArr elems).
      { destruct (get_defined b "services"); eauto; right; discriminate. }
      destruct Hs as [[elems Hs] | Hs];
        [| left; eexists; now apply run_not_array].
      right; right.
      exists elems. do 2 eexists.
      split; [assumption |].
      split.
      * intros ->. unfold incomplete in Hinc. rewrite Hs in Hinc.
        cbn in Hinc. rewrite number_of_nat_truthy in Hinc.
        cbn in Hinc. rewrite !orb_true_r in Hinc. discriminate.
      * exact (run_relay b elems Hu Hn Hinc Hs).
Qed.

(** C10. The 400 answer carries one fixed payload whichever condition
    failed: two bodies that lack a name, a contact or services, in any
    combination, get identical answers, so the answer does not tell which
    field was missing. *)
Theorem validation_answer_is_uniform
    (env' : process_env) (upstream' : remote number)
    (props props' : list (string * value)) :
  lacking props -> lacking props' ->
  responses (snd (run env upstream (VObj props)))
  = responses (snd (run env' upstream' (VObj props')))
  /\ responses (snd (run env upstream (VObj props)))
     = [(400%Z, validation_payload)].
Proof.
  intros H H'.
  rewrite (run_incomplete (VObj props));
    try discriminate; [| now apply lacking_incomplete].
  generalize (lacking_incomplete props').
  intros Hinc.
  unfold run, send, get, bind, ret.
  cbn [get_defined] in *.
  rewrite (Hinc H'). split; reflexivity.
Qed.

(** C2. For a valid SubmissionRequest the outbound POST carries
    [{chat_id: <configured channel>, text: <RelayMessage>, parse_mode:
    "HTML"}], with RelayMessage the greeting header, a blank line, the name
    line, the contact line, a blank line, the services header and one
    bulleted line per service in selection order, joined by line feeds; for
    Ann's submission the text is, byte for byte, the one of the
    specification. *)
Theorem outbound_body_carries_RelayMessage
    (props : list (string * value)) (name contact : string)
    (services : list string) (chat : string) :
  valid_submission props name contact services ->
  CHAT_ID env = Some chat ->
  outbound_calls (snd (run env upstream (VObj props)))
  = [(sendMessage_url env,
      {| method := "POST";
         headers := [("Content-Type", "application/json")];
         body := VObj [("chat_id", VStr chat);
                       ("text", VStr (RelayMessage name contact services));
                       ("parse_mode", VStr "HTML")] |})]
  /\ outbound_calls (snd (run env upstream (VObj ann)))
     = [(sendMessage_url env,
         {| method := "POST";
            headers := [("Content-Type", "application/json")];
            body := VObj [("chat_id", VStr chat);
                          ("text", VStr "📩 Новая заявка с сайта!

👤 Имя: Ann
📱 Контакт: ann@x.com

🔧 Услуги:
  • Haircut");
                          ("parse_mode", VStr "HTML")] |})].
Proof.
  intros Hv Hchat.
  assert (Hann : valid_submission (@ann number) "Ann" "ann@x.com" ["Haircut"]).
  { unfold valid_submission, ann. cbn. repeat split; discriminate. }
  rewrite (run_valid _ _ _ _ Hv), (run_valid _ _ _ _ Hann).
  unfold sendMessage_init, JSON_object. rewrite Hchat.
  cbn [env_value filter snd snd outbound_calls].
  split.
  - destruct (upstream _ _) as [r | e]; [destruct (ok r) |]; reflexivity.
  - destruct (upstream _ _) as [r | e]; [destruct (ok r) |]; reflexivity.
Qed.

(** C3. For a valid request, if the response of the outbound call
    indicates success, the handler answers 200 with [{success: true}] and
    the request made exactly one outbound call. *)
Theorem success_answers_200
    (props : list (string * value)) (name contact : string)
    (services : list string) (r : Response number) :
  valid_submission props name contact services ->
  upstream (sendMessage_url env)
    (sendMessage_init env (RelayMessage name contact services))
  = Resolved r ->
  ok r = true ->
  run env upstream (VObj props)
  = (Normal tt,
     [Fetch (sendMessage_url env)
        (sendMessage_init env (RelayMessage name contact services));
      Respond 200 (VObj [("success", VBool true)])])
  /\ List.length (outbound_calls (snd (run env upstream (VObj props)))) = 1.
Proof.
  intros Hv Hup Hok.
  rewrite (run_valid _ _ _ _ Hv), Hup, Hok. split; reflexivity.
Qed.

(** C4. For a valid request, if the outbound call fails (a response with a
    non-success status, or a rejection), the handler logs the failure
    detail on the server's console and answers 500 with the generic
    payload [{error: "Не удалось отправить сообщение"}]: a fixed text, the
    same for every failure, in which the upstream error text does not
    occur (neither the handler's own "Telegram API error", nor any text
    having a character that the fixed text lacks). *)
Theorem upstream_failure_answers_generic_500
    (props : list (string * value)) (name contact : string)
    (services : list string) :
  let url := sendMessage_url env in
  let init := sendMessage_init env (RelayMessage name contact services) in
  let detail := upstream_error_text (upstream url init) in
  valid_submission props name contact services ->
  failed (upstream url init) ->
  run env upstream (VObj props)
  = (Normal tt,
     [Fetch url init;
      ConsoleError ["Ошибка отправки в Telegram:"; detail];
      Respond 500 (VObj [("error", VStr "Не удалось отправить сообщение")])])
  /\ includes "Не удалось отправить сообщение" "Telegram API error" = false
  /\ (forall ch : ascii,
        In ch (list_ascii_of_string detail) ->
        ~ In ch (list_ascii_of_string "Не удалось отправить сообщение") ->
        includes "Не удалось отправить сообщение" detail = false).
Proof.
  intros url init detail Hv Hfail.
  rewrite (run_valid _ _ _ _ Hv).
  fold url init. subst detail.
  split; [| split].
  - destruct (upstream url init) as [r | e]; cbn in *.
    + rewrite Hfail. reflexivity.
    + reflexivity.
  - reflexivity.
  - intros ch Hin Hnot.
    destruct (includes _ _) eqn:E; [| reflexivity].
    exfalso. apply Hnot. eapply includes_chars; eassumption.
Qed.

End RelayHandler.

(** ** Properties of the form controller *)

Section FormController.
Context {number : Type} {engine : Engine number}.
Variable server : remote number.

Import Client.

(** With no service checked the listener only shows the validation
    message. *)
Lemma run_nothing_selected (p : page) :
  getSelectedServices p = [] ->
  run server p
  = (Normal tt,
     {| dom := {| name_input := name_input p;
                  contact_input := contact_input p;
                  menu_checkboxes := menu_checkboxes p;
                  status_el := {| textContent := "Выберите хотя бы одну услугу";
                                  className := "status error" |};
                  btn := btn p |};
        trace := [PreventDefault] |}).
Proof.
  intros H.
  unfold run, submit, bind, emit, modify, reads. cbn.
  rewrite H. reflexivity.
Qed.

(** With a service checked the listener makes one call and always
    completes; the page it leaves depends on how the call settles. *)
Lemma run_selected (p : page) :
  getSelectedServices p <> [] ->
  exists final : page,
    run server p
    = (Normal tt,
       {| dom := final;
          trace := [PreventDefault; Fetch "/api/send" (submission p)] |})
    /\ btn final = {| disabled := false; label := "Отправить заявку" |}
    /\ if succeeded (server "/api/send" (submission p))
       then name_input final = reset_input (name_input p)
            /\ contact_input final = reset_input (contact_input p)
            /\ menu_checkboxes final
               = map uncheck (map reset_checkbox (menu_checkboxes p))
            /\ status_el final
               = {| textContent := "Заявка отправлена! Я свяжусь с вами.";
                    className := "status success" |}
       else name_input final = name_input p
            /\ contact_input final = contact_input p
            /\ menu_checkboxes final = menu_checkboxes p
            /\ className (status_el final) = "status error".
Proof.
  intros H.
  unfold run, submit, bind, emit, modify, reads. cbn.
  destruct (getSelectedServices p) as [| s rest] eqn:Hsel; [congruence |].
  cbn [List.length Nat.eqb].
  unfold try_finally, try_catch, fetch, bind, emit, modify, update,
    set_btn_disabled, set_btn_textContent, set_status_textContent,
    set_status_className, form_reset, uncheck_all, lift, get, throw, ret.
  cbn.
  unfold submission, JSON_object. rewrite Hsel. cbn.
  destruct (server _ _) as [r | e]; cbn.
  - destruct (json r) as [data | e]; cbn.
    + destruct (ok r); cbn.
      * eexists. split; [reflexivity |]. cbn. repeat split.
      * destruct data; cbn;
          (eexists; split; [reflexivity |]; cbn; repeat split).
    + rewrite andb_false_r.
      eexists. split; [reflexivity |]. cbn. repeat split.
  - eexists. split; [reflexivity |]. cbn. repeat split.
Qed.

Lemma failed_not_succeeded (o : settled number) :
  failed o -> succeeded o = false.
Proof.
  destruct o as [r | e]; cbn; [intros -> |]; reflexivity.
Qed.

(** C6. When [getSelectedServices] returns an empty sequence the listener
    sets the status to the validation message "Выберите хотя бы одну
    услугу", in the error style, and returns without a network call. *)
Theorem no_service_no_call (p : page) :
  getSelectedServices p = [] ->
  fst (run server p) = Normal tt
  /\ status_el (dom (snd (run server p)))
     = {| textContent := "Выберите хотя бы одну услугу";
          className := "status error" |}
  /\ network_calls (trace (snd (run server p))) = [].
Proof.
  intros H. rewrite (run_nothing_selected p H). repeat split.
Qed.

(** C7. Whenever the listener issues the network call, whatever comes back
    (a success response, a non-success response, a network failure, an
    exception while the response is handled) the listener completes, and
    the [finally] step has re-enabled the submit control and put back its
    label "Отправить заявку". *)
Theorem submit_control_restored (p : page) :
  network_calls (trace (snd (run server p))) <> [] ->
  fst (run server p) = Normal tt
  /\ btn (dom (snd (run server p)))
     = {| disabled := false; label := "Отправить заявку" |}.
Proof.
  intros Hcall.
  assert (Hsel : getSelectedServices p <> []).
  { intros Hnone. apply Hcall.
    now rewrite (run_nothing_selected p Hnone). }
  destruct (run_selected p Hsel) as (final & Hrun & Hbtn & _).
  rewrite Hrun. split; [reflexivity | exact Hbtn].
Qed.

(** C9. Frame property of a submission that reaches the network: on the
    TransportError path (non-success response or network failure), and on
    any path other than success, the values of the fields and the checked
    state of every service checkbox are as before; only the success path
    resets the fields ([form.reset()]: each field back to the default of
    the markup) and unchecks all checkboxes. *)
Theorem only_success_clears_form (p : page) :
  getSelectedServices p <> [] ->
  let o := server "/api/send" (submission p) in
  let final := dom (snd (run server p)) in
  (failed o \/ succeeded o = false ->
   name_input final = name_input p
   /\ contact_input final = contact_input p
   /\ menu_checkboxes final = menu_checkboxes p)
  /\ (succeeded o = true ->
      input_value (name_input final) = defaultValue (name_input p)
      /\ input_value (contact_input final) = defaultValue (contact_input p)
      /\ map cb_value (menu_checkboxes final)
         = map cb_value (menu_checkboxes p)
      /\ Forall (fun c => checked c = false) (menu_checkboxes final)).
Proof.
  intros Hsel o final.
  destruct (run_selected p Hsel) as (final' & Hrun & _ & Hif).
  subst final. rewrite Hrun. cbn [snd dom]. fold o in Hif.
  split.
  - intros Hfail.
    assert (Ho : succeeded o = false).
    { destruct Hfail as [Hf | Hf];
        [now apply failed_not_succeeded | exact Hf]. }
    rewrite Ho in Hif. destruct Hif as (Hn & Hc & Hm & _). auto.
  - intros Ho. rewrite Ho in Hif.
    destruct Hif as (Hn & Hc & Hm & _).
    rewrite Hn, Hc, Hm. cbn. repeat split.
    + rewrite !map_map. reflexivity.
    + apply Forall_forall. intros c Hin.
      apply in_map_iff in Hin as (c' & <- & _). reflexivity.
Qed.

End FormController.

(** ** Properties of the two sides together *)

Section BothSides.
Context {number : Type} {engine : Engine number}.
Variable server : remote number.
Variable env : Server.process_env.
Variable upstream : remote number.

(** C5. Whenever a relay call is attempted the services of the request
    being relayed are a non-empty collection, and each side enforces it on
    its own: the page makes no network call when no service is checked,
    and every call it makes carries a non-empty [services]; the handler
    answers 400, before any outbound call, when [services] is absent or
    empty, and every outbound call it makes is for a non-empty array. *)
Theorem relayed_services_are_never_empty
    (p : Client.page) (b : value number)
    (props : list (string * value number)) :
  (Client.getSelectedServices p = [] ->
   Client.network_calls (Client.trace (snd (Client.run server p))) = [])
  /\ (forall url init,
        In (url, init)
          (Client.network_calls (Client.trace (snd (Client.run server p)))) ->
        Client.getSelectedServices p <> []
        /\ exists s rest,
             get_defined (body init) "services" = VArr (VStr s :: rest))
  /\ (absent_or_empty (own props "services") ->
      Server.run env upstream (VObj props)
      = (Normal tt, [Server.Respond 400 validation_payload]))
  /\ (forall url init,
        In (url, init)
          (Server.outbound_calls (snd (Server.run env upstream b))) ->
        exists s rest, get_defined b "services" = VArr (s :: rest)).
Proof.
  split; [| split; [| split]].
  - intros H. now rewrite (run_nothing_selected server p H).
  - intros url init Hin.
    destruct (Client.getSelectedServices p) as [| s rest] eqn:Hsel.
    + rewrite (run_nothing_selected server p Hsel) in Hin. destruct Hin.
    + split; [discriminate |].
      assert (Hne : Client.getSelectedServices p <> []) by congruence.
      destruct (run_selected server p Hne) as (final & Hrun & _).
      rewrite Hrun in Hin. cbn in Hin.
      destruct Hin as [Heq | []]. inversion Heq; subst.
      exists s, (map VStr rest).
      unfold submission. rewrite Hsel. reflexivity.
  - intros H.
    apply run_incomplete; try discriminate.
    apply lacking_incomplete. right; right; exact H.
  - intros url init Hin.
    destruct (run_cases env upstream b)
      as [[e Hrun] | [Hrun | (elems & u & i & Hs & Hne & Hrun)]];
      rewrite Hrun in Hin; cbn in Hin; try contradiction.
    destruct elems as [| s rest]; [congruence |].
    now exists s, rest.
Qed.

(** C8. The page does not check that the name or the contact is filled
    in: with at least one service checked it posts to /api/send whatever
    the trimmed name and contact are, the empty string included; such a
    submission is turned down by the handler, with its 400 answer. *)
Theorem empty_fields_are_rejected_by_server_only (p : Client.page) :
  Client.getSelectedServices p <> [] ->
  Client.network_calls (Client.trace (snd (Client.run server p)))
  = [("/api/send", submission p)]
  /\ get_defined (body (submission p)) "name"
     = VStr (trim (Client.input_value (Client.name_input p)))
  /\ get_defined (body (submission p)) "contact"
     = VStr (trim (Client.input_value (Client.contact_input p)))
  /\ (trim (Client.input_value (Client.name_input p)) = ""
      \/ trim (Client.input_value (Client.contact_input p)) = "" ->
      Server.run env upstream (body (submission p))
      = (Normal tt, [Server.Respond 400 validation_payload])).
Proof.
  intros Hsel.
  destruct (run_selected server p Hsel) as (final & Hrun & _).
  rewrite Hrun.
  split; [reflexivity |].
  split; [reflexivity |].
  split; [reflexivity |].
  intros Hempty.
  apply run_incomplete; try discriminate.
  apply lacking_incomplete.
  unfold lacking, empty_or_absent, submission. cbn.
  destruct Hempty as [-> | ->]; auto.
Qed.

End BothSides.

(** ** Further properties of the relay handler *)

Section RelayHandlerShape.
Context {number : Type} {engine : Engine number}.
Variable env : Server.process_env.
Variable upstream : remote number.

Import Server.

(** The four shapes of a run, with the conditions that select them. *)
Lemma run_shape (b : value number) :
  let name := get_defined b "name" in
  let contact := get_defined b "contact" in
  let services := get_defined b "services" in
  ((b = VUndefined \/ b = VNull)
   /\ exists e, run env upstream b = (Throw e, []))
  \/ (b <> VUndefined /\ b <> VNull
      /\ incomplete name contact services = true
      /\ run env upstream b = (Normal tt, [Respond 400 validation_payload]))
  \/ (b <> VUndefined /\ b <> VNull
      /\ incomplete name contact services = false
      /\ (forall elems, services <> VArr elems)
      /\ exists e, run env upstream b = (Throw e, []))
  \/ (exists elems,
        b <> VUndefined /\ b <> VNull
        /\ incomplete name contact services = false
        /\ services = VArr elems
        /\ run env upstream b
           = (Normal tt,
              Fetch (sendMessage_url env)
                (sendMessage_init env
                   (text name contact
                      (map (fun s => "  • " ++ ToString s) elems))) ::
              match upstream (sendMessage_url env)
                      (sendMessage_init env
                         (text name contact
                            (map (fun s => "  • " ++ ToString s) elems)))
              with
              | Resolved r =>
                  if ok r
                  then [Respond 200 (VObj [("success", VBool true)])]
                  else [ConsoleError ["Ошибка отправки в Telegram:";
                                      "Telegram API error"];
                        Respond 500 failure_payload]
              | Rejected e =>
                  [ConsoleError ["Ошибка отправки в Telegram:"; message e];
                   Respond 500 failure_payload]
              end)).
Proof.
  intros name contact services.
  assert (Hnull : b = VUndefined \/ b = VNull
                  \/ (b <> VUndefined /\ b <> VNull)).
  { destruct b; auto; right; right; split; discriminate. }
  destruct Hnull as [H | [H | [Hu Hn]]].
  - left. split; [now left |]. eexists. apply run_nullish. now left.
  - left. split; [now right |]. eexists. apply run_nullish. now right.
  - right.
    destruct (incomplete name contact services) eqn:Hinc.
    + left. repeat split; auto. now apply run_incomplete.
    + right.
      assert (Hs : (exists elems, services = VArr elems)
                   \/ forall elems, services <> VArr elems).
      { destruct services; eauto; right; discriminate. }
      destruct Hs as [[elems Hs] | Hs].
      * right. exists elems. repeat split; auto.
        exact (run_relay env upstream b elems Hu Hn Hinc Hs).
      * left. repeat split; auto. eexists. now apply run_not_array.
Qed.

(** X1. Whatever the request body, the configuration and the messaging
    API do, the handler writes at most one answer, and it is one of three
    fixed ones: nothing of the request or of the upstream reply is echoed. *)
Theorem every_answer_is_one_of_three (b : value number) :
  responses (snd (run env upstream b)) = []
  \/ responses (snd (run env upstream b)) = [(400%Z, validation_payload)]
  \/ responses (snd (run env upstream b))
     = [(200%Z, VObj [("success", VBool true)])]
  \/ responses (snd (run env upstream b)) = [(500%Z, failure_payload)].
Proof.
  destruct (run_shape b)
    as [(_ & e & Hrun) | [(_ & _ & _ & Hrun)
        | [(_ & _ & _ & _ & e & Hrun) | (elems & _ & _ & _ & _ & Hrun)]]];
    rewrite Hrun; cbn [snd responses]; auto.
  destruct (upstream _ _) as [r | e]; [destruct (ok r) |]; cbn; auto.
Qed.

(** X2. No retries: a request makes at most one outbound call, and that
    call is a POST to the sendMessage URL of the configured bot. *)
Theorem at_most_one_outbound_call (b : value number) :
  outbound_calls (snd (run env upstream b)) = []
  \/ exists text,
       outbound_calls (snd (run env upstream b))
       = [(sendMessage_url env, sendMessage_init env text)].
Proof.
  destruct (run_shape b)
    as [(_ & e & Hrun) | [(_ & _ & _ & Hrun)
        | [(_ & _ & _ & _ & e & Hrun) | (elems & _ & _ & _ & _ & Hrun)]]];
    rewrite Hrun; cbn [snd outbound_calls]; auto.
  right. eexists.
  destruct (upstream _ _) as [r | e]; [destruct (ok r) |]; reflexivity.
Qed.



(** X5. A body that is not an object but a JSON array, string, number or
    boolean has none of the three fields and gets the 400 answer. *)
Theorem non_object_body_is_rejected (b : value number) :
  b <> VUndefined -> b <> VNull -> (forall props, b <> VObj props) ->
  run env upstream b = (Normal tt, [Respond 400 validation_payload]).
Proof.
  intros Hu Hn Ho.
  apply run_incomplete; auto.
  destruct b as [| | x | n | s | elems | props];
    try congruence; try reflexivity;
    try (exfalso; exact (Ho props eq_refl)).
Qed.

(** X6. The test of line 45 goes by truthiness: a name or a contact that
    holds any falsy value ([null], [false], a zero, the empty string), or
    services whose [length] is missing or falsy (a number, a boolean,
    [null], an object without [length]), get the 400 answer. *)
Theorem falsy_fields_are_rejected
    (props : list (string * value number)) (v : value number) :
  (own props "name" = Some v /\ truthy v = false)
  \/ (own props "contact" = Some v /\ truthy v = false)
  \/ (own props "services" = Some v
      /\ truthy (optional_get v "length") = false) ->
  run env upstream (VObj props)
  = (Normal tt, [Respond 400 validation_payload]).
Proof.
  intros H.
  apply run_incomplete; try discriminate.
  unfold incomplete. cbn [get_defined].
  destruct H as [[-> Hv] | [[-> Hv] | [-> Hv]]]; rewrite Hv; cbn;
    rewrite ?orb_true_r; reflexivity.
Qed.

(** X7. The configuration is not checked: for a valid submission with
    [CHAT_ID] unset the call is still made, with a body that has no
    [chat_id] at all; with [BOT_TOKEN] unset it goes to the URL of a bot
    called "undefined". *)
Theorem unset_configuration_still_calls_out
    (props : list (string * value number)) (name contact : string)
    (services : list string) :
  valid_submission props name contact services ->
  (CHAT_ID env = None ->
   outbound_calls (snd (run env upstream (VObj props)))
   = [(sendMessage_url env,
       {| method := "POST";
          headers := [("Content-Type", "application/json")];
          body := VObj [("text", VStr (RelayMessage name contact services));
                        ("parse_mode", VStr "HTML")] |})])
  /\ (BOT_TOKEN env = None ->
      exists init,
        outbound_calls (snd (run env upstream (VObj props)))
        = [("https://api.telegram.org/botundefined/sendMessage", init)]).
Proof.
  intros Hv.
  rewrite (run_valid env upstream _ _ _ _ Hv).
  split.
  - intros Hchat. unfold sendMessage_init, JSON_object. rewrite Hchat.
    cbn [env_value filter snd outbound_calls].
    destruct (upstream _ _) as [r | e]; [destruct (ok r) |]; reflexivity.
  - intros Htok. eexists. unfold sendMessage_url. rewrite Htok.
    cbn [env_value ToString outbound_calls snd].
    destruct (upstream _ _) as [r | e]; [destruct (ok r) |]; reflexivity.
Qed.


Lemma count_LF_append (s t : string) :
  count_LF (s ++ t) = count_LF s + count_LF t.
Proof.
  induction s as [| c s IH]; simpl; [reflexivity | rewrite IH; lia].
Qed.

Lemma count_LF_join (head : string) (rest : list string) :
  count_LF (join LF (head :: rest))
  = count_LF head + List.length rest + list_sum (map count_LF rest).
Proof.
  revert head.
  induction rest as [| r rest IH]; intros head.
  - simpl. lia.
  - rewrite join_cons, !count_LF_append, IH. simpl. lia.
Qed.

(** X9. Nothing is escaped: the text has one line feed per joint of the
    lines, five and one per service, and every line feed within the name,
    the contact or a service on top; with single-line fields the message
    has exactly six lines and one per service. *)
Theorem text_line_feeds (name contact : value number)
    (elems : list (value number)) :
  count_LF (text name contact (map (fun s => "  • " ++ ToString s) elems))
  = 5 + List.length elems
    + count_LF (ToString name) + count_LF (ToString contact)
    + list_sum (map (fun s => count_LF (ToString s)) elems).
Proof.
  unfold text.
  rewrite count_LF_join. cbn [map List.length list_sum].
  rewrite !count_LF_append, !length_map, !map_map.
  assert (Hsum : forall l : list (value number),
             list_sum (map (fun x => count_LF ("  • " ++ ToString x)) l)
             = list_sum (map (fun s => count_LF (ToString s)) l)).
  { induction l as [| x l IH]; [reflexivity |].
    unfold list_sum in *. cbn [map fold_right].
    rewrite IH, count_LF_append. reflexivity. }
  unfold list_sum in *. cbn [fold_right]. rewrite Hsum.
  cbn. lia.
Qed.

End RelayHandlerShape.

(** ** Further properties of the form controller *)

Section FormControllerRun.
Context {number : Type} {engine : Engine number}.
Variable server : remote number.

Import Client.

(** The run of a submission that reaches the network, in full. *)
Lemma run_selected_exact (p : page) :
  getSelectedServices p <> [] ->
  run server p
  = (Normal tt,
     {| dom := settled_page p (server "/api/send" (submission p));
        trace := [PreventDefault; Fetch "/api/send" (submission p)] |}).
Proof.
  intros H.
  unfold run, submit, bind, emit, modify, reads. cbn.
  destruct (getSelectedServices p) as [| s rest] eqn:Hsel; [congruence |].
  cbn [List.length Nat.eqb].
  unfold try_finally, try_catch, fetch, bind, emit, modify, update,
    set_btn_disabled, set_btn_textContent, set_status_textContent,
    set_status_className, form_reset, uncheck_all, lift, get, throw, ret.
  cbn.
  unfold settled_page, succeeded, caught_message, submission, JSON_object.
  rewrite Hsel. cbn.
  destruct (server _ _) as [r | e]; cbn; [| reflexivity].
  destruct (json r) as [data | e]; cbn.
  - destruct (ok r); cbn; [reflexivity |].
    destruct data; reflexivity.
  - rewrite andb_false_r. reflexivity.
Qed.

End FormControllerRun.

Section FormControllerOutcomes.
Context {number : Type} {engine : Engine number}.
Variable server : remote number.

Import Client.



(** X11. A successful submission leaves nothing selected: a submit right
    after it makes no network call and shows the validation message,
    whatever the server would have answered. *)
Theorem resubmit_after_success_is_refused (server' : remote number)
    (p : page) :
  getSelectedServices p <> [] ->
  succeeded (server "/api/send" (submission p)) = true ->
  let after := dom (snd (run server p)) in
  getSelectedServices after = []
  /\ network_calls (trace (snd (run server' after))) = []
  /\ status_el (dom (snd (run server' after)))
     = {| textContent := "Выберите хотя бы одну услугу";
          className := "status error" |}.
Proof.
  intros Hsel Hok after.
  assert (Hnone : getSelectedServices after = []).
  { subst after. rewrite (run_selected_exact server p Hsel). cbn [snd dom].
    unfold settled_page. rewrite Hok.
    unfold getSelectedServices. cbn [menu_checkboxes].
    induction (menu_checkboxes p) as [| c boxes IH]; [reflexivity |].
    cbn. exact IH. }
  split; [exact Hnone |].
  rewrite (run_nothing_selected server' after Hnone). split; reflexivity.
Qed.

(** X12. A submission that did not succeed can be sent again as it is:
    the page holds the same request, and the next submit posts exactly it. *)
Theorem retry_after_failure_repeats_the_request (server' : remote number)
    (p : page) :
  getSelectedServices p <> [] ->
  succeeded (server "/api/send" (submission p)) = false ->
  let after := dom (snd (run server p)) in
  @submission number after = submission p
  /\ network_calls (trace (snd (run server' after)))
     = [("/api/send", submission p)].
Proof.
  intros Hsel Hfail after.
  assert (Hsame : @submission number after = submission p
                  /\ getSelectedServices after = getSelectedServices p).
  { subst after. rewrite (run_selected_exact server p Hsel). cbn [snd dom].
    unfold settled_page. rewrite Hfail. split; reflexivity. }
  destruct Hsame as [Hsub Hsel'].
  split; [exact Hsub |].
  rewrite (run_selected_exact server' after); [| congruence].
  cbn. now rewrite Hsub.
Qed.

(** X13. On a non-success response whose JSON body carries a non-empty
    string [error], the page shows exactly that text, in the error style. *)
Theorem server_error_text_is_shown (p : page) (r : Response number)
    (props : list (string * value number)) (msg : string) :
  getSelectedServices p <> [] ->
  server "/api/send" (submission p) = Resolved r ->
  ok r = false ->
  json r = Normal (VObj props) ->
  own props "error" = Some (VStr msg) ->
  msg <> "" ->
  status_el (dom (snd (run server p)))
  = {| textContent := msg; className := "status error" |}.
Proof.
  intros Hsel Hr Hok Hjson Herr Hmsg.
  rewrite (run_selected_exact server p Hsel), Hr. cbn [snd dom].
  unfold settled_page, succeeded, caught_message.
  rewrite Hok, Hjson. cbn. rewrite Herr. unfold or_else. cbn.
  apply String.eqb_neq in Hmsg. rewrite Hmsg. reflexivity.
Qed.

(** X14. On a non-success response whose JSON body (anything but [null])
    has no [error], or a falsy one, the page falls back to "Ошибка". *)
Theorem missing_error_text_falls_back (p : page) (r : Response number)
    (data : value number) :
  getSelectedServices p <> [] ->
  server "/api/send" (submission p) = Resolved r ->
  ok r = false ->
  json r = Normal data ->
  data <> VUndefined -> data <> VNull ->
  truthy (get_defined data "error") = false ->
  status_el (dom (snd (run server p)))
  = {| textContent := "Ошибка"; className := "status error" |}.
Proof.
  intros Hsel Hr Hok Hjson Hu Hn Herr.
  rewrite (run_selected_exact server p Hsel), Hr. cbn [snd dom].
  unfold settled_page, succeeded, caught_message.
  rewrite Hok, Hjson. cbn [andb].
  unfold or_else. rewrite Herr.
  destruct data; try congruence; reflexivity.
Qed.

(** X15. When the call rejects, or the body of the response is not JSON,
    the message of what was thrown is shown in the error style and the
    form is kept as it was, also when the response had a success status. *)
Theorem thrown_message_is_shown (p : page) (e : exn) :
  getSelectedServices p <> [] ->
  server "/api/send" (submission p) = Rejected e
  \/ (exists r, server "/api/send" (submission p) = Resolved r
                /\ json r = Throw e) ->
  status_el (dom (snd (run server p)))
  = {| textContent := message e; className := "status error" |}
  /\ name_input (dom (snd (run server p))) = name_input p
  /\ contact_input (dom (snd (run server p))) = contact_input p
  /\ menu_checkboxes (dom (snd (run server p))) = menu_checkboxes p.
Proof.
  intros Hsel Hthrown.
  rewrite (run_selected_exact server p Hsel). cbn [snd dom].
  unfold settled_page, succeeded, caught_message.
  destruct Hthrown as [-> | (r & -> & ->)].
  - repeat split.
  - rewrite andb_false_r. repeat split.
Qed.

(** X16. Every submit event has its default action suppressed first,
    whether the validation passes or not, and makes at most one network
    call: a POST of JSON to /api/send. *)
Theorem default_suppressed_and_one_call_at_most (p : page) :
  hd_error (trace (snd (run server p))) = Some PreventDefault
  /\ List.length (network_calls (trace (snd (run server p)))) <= 1
  /\ (forall url init,
        In (url, init) (network_calls (trace (snd (run server p)))) ->
        url = "/api/send" /\ method init = "POST"
        /\ headers init = [("Content-Type", "application/json")]).
Proof.
  destruct (getSelectedServices p) as [| s rest] eqn:Hsel.
  - rewrite (run_nothing_selected server p Hsel). cbn.
    repeat split; try lia; contradiction.
  - rewrite (run_selected_exact server p); [| congruence]. cbn.
    split; [reflexivity |]. split; [lia |].
    intros url init [Heq | []]. inversion Heq; subst. repeat split.
Qed.


End FormControllerOutcomes.

(** ** The page served by the handler *)

Section EndToEnd.
Context {number : Type} {engine : Engine number}.
Variable env : Server.process_env.
Variable upstream : remote number.
Variable server : remote number.
Hypothesis served : served_by env upstream server.

(** The body of the request of a filled-in page is a valid submission. *)
Lemma filled_in_valid (p : Client.page) :
  filled_in p ->
  exists props,
    body (@submission number p) = VObj props
    /\ valid_submission props
         (trim (Client.input_value (Client.name_input p)))
         (trim (Client.input_value (Client.contact_input p)))
         (Client.getSelectedServices p).
Proof.
  intros (Hn & Hc & Hs).
  eexists. split; [reflexivity |].
  unfold valid_submission. cbn. repeat split; assumption.
Qed.

(** X18. A page with a service checked but an empty name or contact:
    the handler turns the request down without calling out, and the page
    shows the handler's own message, keeping the form as it was. *)
Theorem empty_field_shows_the_handler_message (p : Client.page) :
  Client.getSelectedServices p <> [] ->
  trim (Client.input_value (Client.name_input p)) = ""
  \/ trim (Client.input_value (Client.contact_input p)) = "" ->
  Client.status_el (Client.dom (snd (Client.run server p)))
  = {| Client.textContent := "Заполни все поля и выбери хотя бы одну услугу";
       Client.className := "status error" |}
  /\ Server.outbound_calls
       (snd (Server.run env upstream (body (submission p)))) = []
  /\ Client.menu_checkboxes (Client.dom (snd (Client.run server p)))
     = Client.menu_checkboxes p
  /\ Client.name_input (Client.dom (snd (Client.run server p)))
     = Client.name_input p
  /\ Client.contact_input (Client.dom (snd (Client.run server p)))
     = Client.contact_input p.
Proof.
  intros Hsel Hempty.
  assert (Hrun : Server.run env upstream (body (submission p))
                 = (Normal tt, [Server.Respond 400 validation_payload])).
  { apply run_incomplete; try discriminate.
    apply lacking_incomplete.
    unfold lacking, empty_or_absent, submission. cbn.
    destruct Hempty as [-> | ->]; auto. }
  rewrite Hrun.
  rewrite (run_selected_exact server p Hsel).
  rewrite (served (submission p) 400%Z validation_payload);
    [| now rewrite Hrun].
  repeat split.
Qed.

(** X19. A filled-in page whose relay fails upstream (a non-success
    status or a rejection from the messaging API): the page shows the
    handler's generic text "Не удалось отправить сообщение", the form is
    kept for another try and the submit control is usable again. *)
Theorem upstream_failure_shows_the_generic_text (p : Client.page) :
  filled_in p ->
  failed (upstream (Server.sendMessage_url env)
            (Server.sendMessage_init env
               (RelayMessage
                  (trim (Client.input_value (Client.name_input p)))
                  (trim (Client.input_value (Client.contact_input p)))
                  (Client.getSelectedServices p)))) ->
  Client.status_el (Client.dom (snd (Client.run server p)))
  = {| Client.textContent := "Не удалось отправить сообщение";
       Client.className := "status error" |}
  /\ @submission number (Client.dom (snd (Client.run server p)))
     = submission p
  /\ Client.btn (Client.dom (snd (Client.run server p)))
     = {| Client.disabled := false; Client.label := "Отправить заявку" |}.
Proof.
  intros Hfilled Hfail.
  pose proof Hfilled as (_ & _ & Hsel).
  destruct (filled_in_valid p Hfilled) as (props & Hbody & Hvalid).
  assert (Hresp : Server.responses
                    (snd (Server.run env upstream (body (submission p))))
                  = [(500%Z, failure_payload)]).
  { rewrite Hbody, (run_valid env upstream _ _ _ _ Hvalid).
    destruct (upstream _ _) as [r | e]; cbn in *;
      [rewrite Hfail |]; reflexivity. }
  rewrite (run_selected_exact server p Hsel).
  rewrite (served (submission p) 500%Z failure_payload Hresp).
  repeat split.
Qed.

(** X20. A filled-in page whose relay succeeds: the messaging API got
    exactly one call, carrying the RelayMessage of the trimmed name, the
    trimmed contact and the checked services in document order; the page
    shows the success text, resets its fields and unchecks every box. *)
Theorem filled_in_page_is_relayed (p : Client.page) (r : Response number) :
  filled_in p ->
  upstream (Server.sendMessage_url env)
    (Server.sendMessage_init env
       (RelayMessage
          (trim (Client.input_value (Client.name_input p)))
          (trim (Client.input_value (Client.contact_input p)))
          (Client.getSelectedServices p)))
  = Resolved r ->
  ok r = true ->
  Server.outbound_calls
    (snd (Server.run env upstream (body (submission p))))
  = [(Server.sendMessage_url env,
      Server.sendMessage_init env
        (RelayMessage
           (trim (Client.input_value (Client.name_input p)))
           (trim (Client.input_value (Client.contact_input p)))
           (Client.getSelectedServices p)))]
  /\ Client.status_el (Client.dom (snd (Client.run server p)))
     = {| Client.textContent := "Заявка отправлена! Я свяжусь с вами.";
          Client.className := "status success" |}
  /\ Client.getSelectedServices (Client.dom (snd (Client.run server p))) = []
  /\ Client.input_value
       (Client.name_input (Client.dom (snd (Client.run server p))))
     = Client.defaultValue (Client.name_input p)
  /\ Client.input_value
       (Client.contact_input (Client.dom (snd (Client.run server p))))
     = Client.defaultValue (Client.contact_input p).
Proof.
  intros Hfilled Hup Hok.
  pose proof Hfilled as (_ & _ & Hsel).
  destruct (filled_in_valid p Hfilled) as (props & Hbody & Hvalid).
  assert (Hrun : Server.run env upstream (body (submission p))
                 = (Normal tt,
                    [Server.Fetch (Server.sendMessage_url env)
                       (Server.sendMessage_init env
                          (RelayMessage
                             (trim (Client.input_value (Client.name_input p)))
                             (trim (Client.input_value
                                      (Client.contact_input p)))
                             (Client.getSelectedServices p)));
                     Server.Respond 200 (VObj [("success", VBool true)])])).
  { rewrite Hbody, (run_valid env upstream _ _ _ _ Hvalid), Hup, Hok.
    reflexivity. }
  rewrite Hrun.
  rewrite (run_selected_exact server p Hsel).
  rewrite (served (submission p) 200%Z (VObj [("success", VBool true)]));
    [| now rewrite Hrun].
  cbn [snd Client.dom Server.outbound_calls].
  unfold settled_page. cbn.
  repeat split.
  unfold Client.getSelectedServices. cbn.
  induction (Client.menu_checkboxes p) as [| c boxes IH]; [reflexivity |].
  cbn. exact IH.
Qed.

End EndToEnd.

Lemma express_served_by {number : Type} {engine : Engine number}
    (env : Server.process_env) (upstream : remote number) :
  served_by env upstream (express env upstream).
Proof.
  intros init code payload H. unfold express. now rewrite H.
Qed.

(** ** Properties of the services menu *)

Lemma contains_remove (l : Dropdown.classList) (token : string) :
  Dropdown.contains (Dropdown.remove l token) token = false.
Proof.
  unfold Dropdown.contains, Dropdown.remove.
  induction l as [| c l IH]; [reflexivity |].
  cbn. destruct (c =? token) eqn:E; cbn; [exact IH |].
  rewrite String.eqb_sym, E. exact IH.
Qed.

Lemma remove_idempotent (l : Dropdown.classList) (token : string) :
  Dropdown.remove (Dropdown.remove l token) token = Dropdown.remove l token.
Proof.
  unfold Dropdown.remove.
  induction l as [| c l IH]; [reflexivity |].
  cbn. destruct (c =? token) eqn:E; cbn; [exact IH |].
  rewrite E. cbn. now rewrite IH.
Qed.

Lemma remove_toggle (l : Dropdown.classList) (token : string) :
  Dropdown.remove (Dropdown.toggle l token) token = Dropdown.remove l token.
Proof.
  unfold Dropdown.toggle.
  destruct (Dropdown.contains l token).
  - apply remove_idempotent.
  - unfold Dropdown.remove. rewrite filter_app. cbn.
    rewrite String.eqb_refl. cbn. apply app_nil_r.
Qed.

Lemma contains_toggle (l : Dropdown.classList) (token : string) :
  Dropdown.contains (Dropdown.toggle l token) token
  = negb (Dropdown.contains l token).
Proof.
  unfold Dropdown.toggle.
  destruct (Dropdown.contains l token) eqn:E.
  - apply contains_remove.
  - unfold Dropdown.contains in *. rewrite existsb_app, E. cbn.
    now rewrite String.eqb_refl.
Qed.

(** X21. A click on the button flips whether the menu is open and leaves
    its other classes alone; two clicks bring back the state it had. *)
Theorem button_click_flips_the_menu (menu : Dropdown.classList) :
  Dropdown.contains (Dropdown.dropdownBtn_click menu) "open"
  = negb (Dropdown.contains menu "open")
  /\ Dropdown.remove (Dropdown.dropdownBtn_click menu) "open"
     = Dropdown.remove menu "open"
  /\ Dropdown.contains
       (Dropdown.dropdownBtn_click (Dropdown.dropdownBtn_click menu)) "open"
     = Dropdown.contains menu "open".
Proof.
  unfold Dropdown.dropdownBtn_click.
  split; [apply contains_toggle |].
  split; [apply remove_toggle |].
  rewrite !contains_toggle. apply negb_involutive.
Qed.

(** X22. A click whose target is outside every [.dropdown] closes the
    menu whatever its state, keeps its other classes, and a second such
    click changes nothing more; a click inside leaves the menu as it is. *)
Theorem outside_click_closes_the_menu (menu : Dropdown.classList) :
  Dropdown.contains (Dropdown.document_click false menu) "open" = false
  /\ Dropdown.remove (Dropdown.document_click false menu) "open"
     = Dropdown.remove menu "open"
  /\ Dropdown.document_click false (Dropdown.document_click false menu)
     = Dropdown.document_click false menu
  /\ Dropdown.document_click true menu = menu.
Proof.
  change (Dropdown.document_click false menu)
    with (Dropdown.remove menu "open").
  change (Dropdown.document_click false (Dropdown.remove menu "open"))
    with (Dropdown.remove (Dropdown.remove menu "open") "open").
  split; [apply contains_remove |].
  split; [apply remove_idempotent |].
  split; [apply remove_idempotent | reflexivity].
Qed.

(** X23. The click on the button also reaches the listener of the
    document: with the button inside a [.dropdown] the click flips the
    menu; with the button outside of one the menu is closed after every
    click, so the button could never open it. *)
Theorem button_must_sit_inside_the_dropdown (menu : Dropdown.classList) :
  Dropdown.contains (Dropdown.click_on_button true menu) "open"
  = negb (Dropdown.contains menu "open")
  /\ Dropdown.contains (Dropdown.click_on_button false menu) "open" = false.
Proof.
  change (Dropdown.click_on_button true menu)
    with (Dropdown.toggle menu "open").
  change (Dropdown.click_on_button false menu)
    with (Dropdown.remove (Dropdown.toggle menu "open") "open").
  split; [apply contains_toggle | apply contains_remove].
Qed.

(** ** Trimmed fields *)

Lemma drop_white_length (backwards : bool) (n : nat) :
  forall l, List.length l <= n ->
            List.length (drop_white backwards l) <= List.length l.
Proof.
  induction n as [| n IH]; intros l Hl.
  - destruct l; [simpl; lia | simpl in Hl; lia].
  - destruct l as [| a r1]; cbn [drop_white]; [lia |].
    simpl in Hl.
    destruct (ws1 a).
    { specialize (IH r1). simpl. lia. }
    destruct r1 as [| b r2]; [lia |].
    simpl in Hl.
    destruct (if backwards then ws2 b a else ws2 a b).
    { specialize (IH r2). simpl. lia. }
    destruct r2 as [| c r3]; [lia |].
    simpl in Hl.
    destruct (if backwards then ws3 c b a else ws3 a b c); [| lia].
    specialize (IH r3). simpl. lia.
Qed.

Lemma drop_white_idempotent (backwards : bool) (n : nat) :
  forall l, List.length l <= n ->
            drop_white backwards (drop_white backwards l)
            = drop_white backwards l.
Proof.
  induction n as [| n IH]; intros l Hl.
  - destruct l; [reflexivity | simpl in Hl; lia].
  - destruct l as [| a r1]; cbn [drop_white]; [reflexivity |].
    simpl in Hl.
    destruct (ws1 a) eqn:E1.
    { apply IH. lia. }
    destruct r1 as [| b r2].
    { cbn [drop_white]. now rewrite E1. }
    simpl in Hl.
    destruct (if backwards then ws2 b a else ws2 a b) eqn:E2.
    { apply IH. lia. }
    destruct r2 as [| c r3].
    { cbn [drop_white]. now rewrite E1, E2. }
    simpl in Hl.
    destruct (if backwards then ws3 c b a else ws3 a b c) eqn:E3.
    { apply IH. lia. }
    cbn [drop_white]. now rewrite E1, E2, E3.
Qed.

Lemma drop_white_suffix (backwards : bool) (n : nat) :
  forall l, List.length l <= n ->
            exists pre, l = (pre ++ drop_white backwards l)%list.
Proof.
  induction n as [| n IH]; intros l Hl.
  - destruct l; [now exists [] | simpl in Hl; lia].
  - destruct l as [| a r1]; cbn [drop_white]; [now exists [] |].
    simpl in Hl.
    destruct (ws1 a).
    { destruct (IH r1) as [pre Hpre]; [lia |].
      exists (a :: pre). cbn. now rewrite <- Hpre. }
    destruct r1 as [| b r2]; [now exists [] |].
    simpl in Hl.
    destruct (if backwards then ws2 b a else ws2 a b).
    { destruct (IH r2) as [pre Hpre]; [lia |].
      exists (a :: b :: pre). cbn. now rewrite <- Hpre. }
    destruct r2 as [| c r3]; [now exists [] |].
    simpl in Hl.
    destruct (if backwards then ws3 c b a else ws3 a b c); [| now exists []].
    destruct (IH r3) as [pre Hpre]; [lia |].
    exists (a :: b :: c :: pre). cbn. now rewrite <- Hpre.
Qed.

Lemma drop_white_fixed_prefix (x y : list ascii) :
  drop_white false (x ++ y) = (x ++ y)%list -> drop_white false x = x.
Proof.
  intros H.
  assert (Hlen : forall l, List.length (drop_white false l) <= List.length l).
  { intros l. now apply (drop_white_length false (List.length l)). }
  assert (Hshort : forall l, List.length l < List.length (x ++ y) ->
                             drop_white false l <> (x ++ y)%list).
  { intros l Hl Heq. specialize (Hlen l). rewrite Heq in Hlen. lia. }
  destruct x as [| a x1]; [reflexivity |].
  cbn [drop_white app] in *.
  destruct (ws1 a).
  { exfalso. apply (Hshort (x1 ++ y)%list); [simpl; lia | exact H]. }
  destruct x1 as [| b x2]; [reflexivity |].
  cbn [app] in *.
  destruct (ws2 a b).
  { exfalso. apply (Hshort (x2 ++ y)%list); [simpl; lia | exact H]. }
  destruct x2 as [| c x3]; [reflexivity |].
  cbn [app] in *.
  destruct (ws3 a b c); [| reflexivity].
  exfalso. apply (Hshort (x3 ++ y)%list); [simpl; lia | exact H].
Qed.

Lemma trim_idempotent (s : string) : trim (trim s) = trim s.
Proof.
  unfold trim.
  rewrite list_ascii_of_string_of_list_ascii.
  set (X := drop_white false (list_ascii_of_string s)).
  set (Y := drop_white true (rev X)).
  assert (HX : drop_white false X = X).
  { apply (drop_white_idempotent false (List.length (list_ascii_of_string s))).
    lia. }
  destruct (drop_white_suffix true (List.length (rev X)) (rev X)) as [pre Hpre];
    [lia |].
  fold Y in Hpre.
  assert (HXY : X = (rev Y ++ rev pre)%list).
  { rewrite <- rev_app_distr, <- Hpre. now rewrite rev_involutive. }
  assert (HT : drop_white false (rev Y) = rev Y).
  { apply (drop_white_fixed_prefix (rev Y) (rev pre)). now rewrite <- HXY. }
  rewrite HT, rev_involutive.
  assert (HY : drop_white true Y = Y).
  { apply (drop_white_idempotent true (List.length (rev X))). lia. }
  now rewrite HY.
Qed.

(** X24. The name and the contact the page sends are trimmed for good:
    trimming what was sent once more gives the same text, so neither
    starts nor ends with white space. *)
Theorem sent_fields_are_trimmed {number : Type} {engine : Engine number}
    (p : Client.page) (key v : string) :
  key = "name" \/ key = "contact" ->
  get_defined (body (@submission number p)) key = VStr v ->
  trim v = v.
Proof.
  intros [-> | ->]; cbn; intros H; inversion H; apply trim_idempotent.
Qed.

(** X25. With a service checked, the handler answers 400 to the request of
    the page exactly when the trimmed name or the trimmed contact is
    empty. *)
Theorem page_request_rejected_iff_field_empty
    {number : Type} {engine : Engine number}
    (env : Server.process_env) (upstream : remote number)
    (p : Client.page) :
  Client.getSelectedServices p <> [] ->
  Server.responses (snd (Server.run env upstream (body (submission p))))
  = [(400%Z, validation_payload)]
  <-> (trim (Client.input_value (Client.name_input p)) = ""
       \/ trim (Client.input_value (Client.contact_input p)) = "").
Proof.
  intros Hsel. split.
  - intros H400.
    destruct (string_dec (trim (Client.input_value (Client.name_input p))) "")
      as [Hn | Hn]; [now left |].
    destruct (string_dec
                (trim (Client.input_value (Client.contact_input p))) "")
      as [Hc | Hc]; [now right |].
    exfalso.
    destruct (@filled_in_valid number p (conj Hn (conj Hc Hsel)))
      as (props & Hbody & Hvalid).
    rewrite Hbody, (run_valid env upstream _ _ _ _ Hvalid) in H400.
    cbn in H400.
    destruct (upstream _ _) as [r | e]; [destruct (ok r) |];
      discriminate.
  - intros Hempty.
    rewrite (run_incomplete env upstream (body (submission p)));
      try discriminate; [reflexivity |].
    apply lacking_incomplete.
    unfold lacking, empty_or_absent, submission. cbn.
    destruct Hempty as [-> | ->]; auto.
Qed.

(** ** The theorems at concrete requests and pages *)

(** The control is restored on each way out of the call. *)
Example every_exit_restores_the_control :
  Forall (fun server =>
            fst (Client.run server example_page) = Normal tt
            /\ Client.btn (Client.dom (snd (Client.run server example_page)))
               = {| Client.disabled := false;
                    Client.label := "Отправить заявку" |})
    [server_200; server_500; server_offline; server_garbled].
Proof. repeat constructor. Qed.

(** End-to-end scenario 3: the messaging API answers 403, the handler
    answers 500 with its generic payload, the page shows that text. *)
Example scenario_upstream_403 :
  Server.responses (snd (Server.run example_env upstream_403 (VObj ann)))
  = [(500%Z, VObj [("error", VStr "Не удалось отправить сообщение")])]
  /\ Client.status_el (Client.dom (snd (Client.run server_500 example_page)))
     = {| Client.textContent := "Не удалось отправить сообщение";
          Client.className := "status error" |}.
Proof. split; reflexivity. Qed.

(** A body whose [services] is a non-empty string passes the test of line
    45; [services.map] then throws outside the [try], and the handler
    neither calls out nor answers. *)
Example services_as_a_string :
  Server.run example_env upstream_200
    (VObj [("name", VStr "Ann"); ("contact", VStr "ann@x.com");
           ("services", VStr "Haircut")])
  = (Throw (Exn "TypeError" "services.map is not a function"), []).
Proof. reflexivity. Qed.

Lemma validation_rejects_lacking_witness :
  lacking (@nameless Z)
  /\ exists msg : string,
       msg <> ""
       /\ Server.run example_env upstream_200 (VObj nameless)
          = (Normal tt, [Server.Respond 400 (VObj [("error", VStr msg)])])
       /\ Server.outbound_calls
            (snd (Server.run example_env upstream_200 (VObj nameless))) = [].
Proof.
  split.
  - left; right; reflexivity.
  - apply (validation_rejects_lacking example_env upstream_200 nameless).
    left; right; reflexivity.
Defined.

Lemma validation_answer_is_uniform_witness :
  lacking (@nameless Z) /\ lacking (@without_services Z)
  /\ Server.responses
       (snd (Server.run example_env upstream_200 (VObj nameless)))
     = Server.responses
         (snd (Server.run example_env upstream_down (VObj without_services))).
Proof.
  split; [left; right; reflexivity |].
  split; [right; right; left; reflexivity |].
  apply (validation_answer_is_uniform example_env upstream_200
           example_env upstream_down nameless without_services).
  - left; right; reflexivity.
  - right; right; left; reflexivity.
Defined.

Lemma outbound_body_carries_RelayMessage_witness :
  valid_submission (@ann Z) "Ann" "ann@x.com" ["Haircut"]
  /\ Server.CHAT_ID example_env = Some "42"
  /\ Server.outbound_calls
       (snd (Server.run example_env upstream_200 (VObj ann)))
     = [(Server.sendMessage_url example_env,
         {| method := "POST";
            headers := [("Content-Type", "application/json")];
            body := VObj [("chat_id", VStr "42");
                          ("text",
                           VStr (RelayMessage "Ann" "ann@x.com" ["Haircut"]));
                          ("parse_mode", VStr "HTML")] |})].
Proof.
  assert (Hv : valid_submission (@ann Z) "Ann" "ann@x.com" ["Haircut"]).
  { repeat split; try reflexivity; discriminate. }
  split; [exact Hv |].
  split; [reflexivity |].
  exact (proj1 (outbound_body_carries_RelayMessage example_env upstream_200
                  ann "Ann" "ann@x.com" ["Haircut"] "42" Hv eq_refl)).
Defined.

Lemma success_answers_200_witness :
  valid_submission (@ann Z) "Ann" "ann@x.com" ["Haircut"]
  /\ Server.run example_env upstream_200 (VObj ann)
     = (Normal tt,
        [Server.Fetch (Server.sendMessage_url example_env)
           (Server.sendMessage_init example_env
              (RelayMessage "Ann" "ann@x.com" ["Haircut"]));
         Server.Respond 200 (VObj [("success", VBool true)])]).
Proof.
  assert (Hv : valid_submission (@ann Z) "Ann" "ann@x.com" ["Haircut"]).
  { repeat split; try reflexivity; discriminate. }
  split; [exact Hv |].
  exact (proj1 (success_answers_200 example_env upstream_200
                  ann "Ann" "ann@x.com" ["Haircut"] _ Hv eq_refl eq_refl)).
Defined.

Lemma upstream_failure_answers_generic_500_witness :
  valid_submission (@ann Z) "Ann" "ann@x.com" ["Haircut"]
  /\ Server.run example_env upstream_403 (VObj ann)
     = (Normal tt,
        [Server.Fetch (Server.sendMessage_url example_env)
           (Server.sendMessage_init example_env
              (RelayMessage "Ann" "ann@x.com" ["Haircut"]));
         Server.ConsoleError ["Ошибка отправки в Telegram:";
                              "Telegram API error"];
         Server.Respond 500
           (VObj [("error", VStr "Не удалось отправить сообщение")])])
  /\ Server.run example_env upstream_down (VObj ann)
     = (Normal tt,
        [Server.Fetch (Server.sendMessage_url example_env)
           (Server.sendMessage_init example_env
              (RelayMessage "Ann" "ann@x.com" ["Haircut"]));
         Server.ConsoleError ["Ошибка отправки в Telegram:"; "fetch failed"];
         Server.Respond 500
           (VObj [("error", VStr "Не удалось отправить сообщение")])])
  /\ includes "Не удалось отправить сообщение" "fetch failed" = false.
Proof.
  assert (Hv : valid_submission (@ann Z) "Ann" "ann@x.com" ["Haircut"]).
  { repeat split; try reflexivity; discriminate. }
  split; [exact Hv |].
  split; [| split].
  - exact (proj1 (upstream_failure_answers_generic_500 example_env
                    upstream_403 ann "Ann" "ann@x.com" ["Haircut"]
                    Hv eq_refl)).
  - exact (proj1 (upstream_failure_answers_generic_500 example_env
                    upstream_down ann "Ann" "ann@x.com" ["Haircut"] Hv I)).
  - apply (proj2 (proj2 (upstream_failure_answers_generic_500 example_env
                    upstream_down ann "Ann" "ann@x.com" ["Haircut"] Hv I))
             "f"%char).
    + left; reflexivity.
    + vm_compute. intuition discriminate.
Defined.

Lemma relayed_services_are_never_empty_witness :
  Client.network_calls
    (Client.trace (snd (Client.run server_200 unchecked_page))) = []
  /\ Server.run example_env upstream_200 (VObj without_services)
     = (Normal tt, [Server.Respond 400 validation_payload])
  /\ (exists s rest,
        get_defined (body (@submission Z example_page)) "services"
        = VArr (VStr s :: rest))
  /\ (exists s rest,
        get_defined (VObj (@ann Z)) "services" = VArr (s :: rest)).
Proof.
  destruct (relayed_services_are_never_empty server_200 example_env
              upstream_200 unchecked_page (VObj ann) without_services)
    as (Hclient & _ & Hserver & Hcall).
  destruct (relayed_services_are_never_empty server_200 example_env
              upstream_200 example_page (VObj ann) without_services)
    as (_ & Hpage & _ & _).
  split; [apply Hclient; reflexivity |].
  split; [apply Hserver; left; reflexivity |].
  split.
  - apply (Hpage "/api/send" (submission example_page)).
    left; reflexivity.
  - apply (Hcall (Server.sendMessage_url example_env)
             (Server.sendMessage_init example_env
                (RelayMessage "Ann" "ann@x.com" ["Haircut"]))).
    left; reflexivity.
Defined.

Lemma no_service_no_call_witness :
  Client.getSelectedServices unchecked_page = []
  /\ Client.status_el (Client.dom (snd (Client.run server_200 unchecked_page)))
     = {| Client.textContent := "Выберите хотя бы одну услугу";
          Client.className := "status error" |}
  /\ Client.network_calls
       (Client.trace (snd (Client.run server_200 unchecked_page))) = [].
Proof.
  split; [reflexivity |].
  apply (no_service_no_call server_200 unchecked_page). reflexivity.
Defined.

Lemma submit_control_restored_witness :
  Client.network_calls
    (Client.trace (snd (Client.run server_500 example_page))) <> []
  /\ Client.btn (Client.dom (snd (Client.run server_500 example_page)))
     = {| Client.disabled := false; Client.label := "Отправить заявку" |}.
Proof.
  split; [discriminate |].
  apply (submit_control_restored server_500 example_page). discriminate.
Defined.

Lemma only_success_clears_form_witness :
  Client.getSelectedServices example_page <> []
  /\ Client.menu_checkboxes
       (Client.dom (snd (Client.run server_500 example_page)))
     = Client.menu_checkboxes example_page
  /\ Forall (fun c => Client.checked c = false)
       (Client.menu_checkboxes
          (Client.dom (snd (Client.run server_200 example_page)))).
Proof.
  split; [discriminate |].
  split.
  - apply (proj1 (only_success_clears_form server_500 example_page
                    ltac:(discriminate))).
    left; reflexivity.
  - apply (proj2 (only_success_clears_form server_200 example_page
                    ltac:(discriminate))).
    reflexivity.
Defined.

Lemma empty_fields_are_rejected_by_server_only_witness :
  Client.getSelectedServices example_page <> []
  /\ trim (Client.input_value (Client.name_input example_page)) = ""
  /\ Client.network_calls
       (Client.trace (snd (Client.run server_200 example_page)))
     = [("/api/send", submission example_page)]
  /\ Server.run example_env upstream_200 (body (submission example_page))
     = (Normal tt, [Server.Respond 400 validation_payload]).
Proof.
  split; [discriminate |].
  split; [reflexivity |].
  destruct (empty_fields_are_rejected_by_server_only server_200 example_env
              upstream_200 example_page ltac:(discriminate))
    as (Hcalls & _ & _ & Hserver).
  split; [exact Hcalls |].
  apply Hserver. left; reflexivity.
Defined.



Lemma non_object_body_is_rejected_witness :
  Server.run example_env upstream_200 (VArr [VStr "Ann"])
  = (Normal tt, [Server.Respond 400 validation_payload]).
Proof.
  apply (non_object_body_is_rejected example_env upstream_200
           (VArr [VStr "Ann"])); discriminate.
Defined.

Lemma falsy_fields_are_rejected_witness :
  truthy (@VNull Z) = false
  /\ Server.run example_env upstream_200
       (VObj [("name", VNull); ("contact", VStr "ann@x.com");
              ("services", VArr [VStr "Haircut"])])
     = (Normal tt, [Server.Respond 400 validation_payload]).
Proof.
  split; [reflexivity |].
  apply (falsy_fields_are_rejected example_env upstream_200
           [("name", VNull); ("contact", VStr "ann@x.com");
            ("services", VArr [VStr "Haircut"])] VNull).
  left. split; reflexivity.
Defined.

Lemma unset_configuration_still_calls_out_witness :
  valid_submission (@ann Z) "Ann" "ann@x.com" ["Haircut"]
  /\ Server.outbound_calls
       (snd (Server.run bare_env upstream_200 (VObj ann)))
     = [("https://api.telegram.org/botundefined/sendMessage",
         {| method := "POST";
            headers := [("Content-Type", "application/json")];
            body := VObj [("text",
                           VStr (RelayMessage "Ann" "ann@x.com" ["Haircut"]));
                          ("parse_mode", VStr "HTML")] |})].
Proof.
  assert (Hv : valid_submission (@ann Z) "Ann" "ann@x.com" ["Haircut"]).
  { repeat split; try reflexivity; discriminate. }
  split; [exact Hv |].
  exact (proj1 (unset_configuration_still_calls_out bare_env upstream_200
                  ann "Ann" "ann@x.com" ["Haircut"] Hv) eq_refl).
Defined.

Lemma resubmit_after_success_is_refused_witness :
  Client.getSelectedServices example_page <> []
  /\ succeeded (server_200 "/api/send" (submission example_page)) = true
  /\ Client.network_calls
       (Client.trace
          (snd (Client.run server_200
                  (Client.dom (snd (Client.run server_200 example_page))))))
     = [].
Proof.
  split; [discriminate |].
  split; [reflexivity |].
  apply (resubmit_after_success_is_refused server_200 server_200
           example_page); [discriminate | reflexivity].
Defined.

Lemma retry_after_failure_repeats_the_request_witness :
  Client.getSelectedServices example_page <> []
  /\ succeeded (server_offline "/api/send" (submission example_page)) = false
  /\ Client.network_calls
       (Client.trace
          (snd (Client.run server_200
                  (Client.dom (snd (Client.run server_offline
                                      example_page))))))
     = [("/api/send", submission example_page)].
Proof.
  split; [discriminate |].
  split; [reflexivity |].
  apply (retry_after_failure_repeats_the_request server_offline server_200
           example_page); [discriminate | reflexivity].
Defined.

Lemma server_error_text_is_shown_witness :
  Client.getSelectedServices example_page <> []
  /\ Client.status_el (Client.dom (snd (Client.run server_500 example_page)))
     = {| Client.textContent := "Не удалось отправить сообщение";
          Client.className := "status error" |}.
Proof.
  split; [discriminate |].
  apply (server_error_text_is_shown server_500 example_page
           {| status := 500; json := Normal failure_payload |}
           [("error", VStr "Не удалось отправить сообщение")]
           "Не удалось отправить сообщение");
    try reflexivity; discriminate.
Defined.

Lemma missing_error_text_falls_back_witness :
  Client.getSelectedServices example_page <> []
  /\ Client.status_el
       (Client.dom (snd (Client.run server_500_bare example_page)))
     = {| Client.textContent := "Ошибка"; Client.className := "status error" |}.
Proof.
  split; [discriminate |].
  apply (missing_error_text_falls_back server_500_bare example_page
           {| status := 500; json := Normal (VObj []) |} (VObj []));
    try reflexivity; discriminate.
Defined.

Lemma thrown_message_is_shown_witness :
  Client.getSelectedServices example_page <> []
  /\ ok {| status := 200;
           json := @Throw (value Z)
                     (Exn "SyntaxError" "Unexpected token < in JSON") |}
     = true
  /\ Client.status_el
       (Client.dom (snd (Client.run server_garbled example_page)))
     = {| Client.textContent := "Unexpected token < in JSON";
          Client.className := "status error" |}.
Proof.
  split; [discriminate |].
  split; [reflexivity |].
  apply (thrown_message_is_shown server_garbled example_page
           (Exn "SyntaxError" "Unexpected token < in JSON"));
    [discriminate |].
  right. eexists. split; reflexivity.
Defined.

Lemma empty_field_shows_the_handler_message_witness :
  Client.getSelectedServices example_page <> []
  /\ trim (Client.input_value (Client.name_input example_page)) = ""
  /\ Client.status_el
       (Client.dom
          (snd (Client.run (express example_env upstream_200) example_page)))
     = {| Client.textContent :=
            "Заполни все поля и выбери хотя бы одну услугу";
          Client.className := "status error" |}.
Proof.
  split; [discriminate |].
  split; [reflexivity |].
  apply (empty_field_shows_the_handler_message example_env upstream_200
           (express example_env upstream_200)
           (express_served_by example_env upstream_200) example_page);
    [discriminate | left; reflexivity].
Defined.

Lemma upstream_failure_shows_the_generic_text_witness :
  filled_in ready_page
  /\ Client.status_el
       (Client.dom
          (snd (Client.run (express example_env upstream_403) ready_page)))
     = {| Client.textContent := "Не удалось отправить сообщение";
          Client.className := "status error" |}.
Proof.
  assert (Hf : filled_in ready_page).
  { repeat split; discriminate. }
  split; [exact Hf |].
  apply (upstream_failure_shows_the_generic_text example_env upstream_403
           (express example_env upstream_403)
           (express_served_by example_env upstream_403) ready_page Hf).
  reflexivity.
Defined.

Lemma filled_in_page_is_relayed_witness :
  filled_in ready_page
  /\ Server.outbound_calls
       (snd (Server.run example_env upstream_200
               (body (submission ready_page))))
     = [(Server.sendMessage_url example_env,
         Server.sendMessage_init example_env
           (RelayMessage "Ann" "ann@x.com" ["Haircut"]))].
Proof.
  assert (Hf : filled_in ready_page).
  { repeat split; discriminate. }
  split; [exact Hf |].
  apply (filled_in_page_is_relayed example_env upstream_200
           (express example_env upstream_200)
           (express_served_by example_env upstream_200) ready_page
           {| status := 200; json := Normal (VObj [("ok", VBool true)]) |} Hf);
    reflexivity.
Defined.

Lemma sent_fields_are_trimmed_witness :
  get_defined (body (@submission Z ready_page)) "name" = VStr "Ann"
  /\ trim "Ann" = "Ann".
Proof.
  split; [reflexivity |].
  apply (sent_fields_are_trimmed ready_page "name" "Ann");
    [left; reflexivity | reflexivity].
Defined.

Lemma page_request_rejected_iff_field_empty_witness :
  Client.getSelectedServices example_page <> []
  /\ Server.responses
       (snd (Server.run example_env upstream_200
               (body (submission example_page))))
     = [(400%Z, validation_payload)].
Proof.
  split; [discriminate |].
  apply (page_request_rejected_iff_field_empty example_env upstream_200
           example_page); [discriminate | left; reflexivity].
Defined.
